(** * AIVERSE career data store: the schema of [supabase_schema.sql]

    A shallow embedding of the PostgreSQL schema that backs the AI Career
    Companion: six tenant-owned tables with their column constraints, the
    row-level-security policies, the [ON DELETE CASCADE] foreign keys, the
    two helper functions [get_application_stats] and [get_learning_streak]
    and the trigger function [handle_new_user].

    Conventions.
    - A nullable column is an [option]; [None] is SQL [NULL].
    - A row is the tuple as it is stored, that is after the column
      [DEFAULT]s were applied to the columns an [INSERT] left out and after
      the literals were coerced to the column types.
    - A table is the list of its rows in insertion order.
    - A statement returns [Ok] with the new table (or store), or [Err] with
      the SQLSTATE condition PostgreSQL raises; a failed statement leaves
      the store as it was, since the store is only replaced on [Ok]. *)

From Stdlib Require Import ZArith NArith List String Ascii Bool Lia.
From Stdlib Require Import DecimalString.
Import ListNotations.

Local Open Scope string_scope.
Local Open Scope Z_scope.

(** ** Column types *)

(** [UUID]: an opaque token compared for equality only. *)
Definition uuid := N.

(** [TEXT]. *)
Definition text := string.

(** [TIMESTAMPTZ]: an instant, in microseconds since the epoch. *)
Definition timestamptz := Z.

(** [DATE]: a calendar day, as a day number; [d - INTERVAL '1 day'] assigned
    to a [DATE] is [d - 1].  The bounds of PostgreSQL's date range are not
    modelled. *)
Definition date := Z.

(** [DECIMAL(p,s)]: a fixed-point number, kept as its unscaled integer. *)
Definition decimal := Z.

(** ** SQL's three-valued logic *)

Module SQL.

(** A boolean expression evaluates to true, false or unknown ([NULL]). *)
Definition sql_bool := option bool.

(** [x = y]: unknown as soon as one side is [NULL]. *)
Definition eq {A : Type} (eqb : A -> A -> bool) (x y : option A) : sql_bool :=
  match x, y with
  | Some a, Some b => Some (eqb a b)
  | _, _ => None
  end.

(** [x IN ('a', 'b', ...)] over non-null literals. *)
Definition in_list (x : option text) (vals : list text) : sql_bool :=
  match x with
  | Some v => Some (existsb (String.eqb v) vals)
  | None => None
  end.

(** [x BETWEEN lo AND hi], both bounds inclusive. *)
Definition between (x : option Z) (lo hi : Z) : sql_bool :=
  match x with
  | Some v => Some ((lo <=? v) && (v <=? hi))
  | None => None
  end.

(** [a AND b]. *)
Definition and (a b : sql_bool) : sql_bool :=
  match a, b with
  | Some false, _ | _, Some false => Some false
  | Some true, Some true => Some true
  | _, _ => None
  end.

(** A [WHERE], [FILTER], [USING] or [WITH CHECK] clause keeps a row only
    when the expression is true. *)
Definition is_true (b : sql_bool) : bool :=
  match b with
  | Some true => true
  | _ => false
  end.

(** A [CHECK] constraint rejects a row only when the expression is false:
    an unknown result satisfies it. *)
Definition not_false (b : sql_bool) : bool :=
  match b with
  | Some false => false
  | _ => true
  end.

End SQL.

(** ** JSONB values and the [->>] operator *)

#[warnings="-register-all"]
Inductive jsonb : Type :=
| JNull
| JBool (b : bool)
| JNum (n : Z)
| JStr (s : text)
| JArr (items : list jsonb)
| JObj (fields : list (text * jsonb)).

Definition dquote : text := String (ascii_of_nat 34) EmptyString.

(** The text form of a value, as [jsonb_out] prints it (numbers are the
    integral ones, string escapes are not modelled). *)
Fixpoint json_out (j : jsonb) : text :=
  match j with
  | JNull => "null"
  | JBool true => "true"
  | JBool false => "false"
  | JNum n => NilZero.string_of_int (Z.to_int n)
  | JStr s => dquote ++ s ++ dquote
  | JArr items =>
      "[" ++ (fix elems (l : list jsonb) : text :=
                match l with
                | [] => EmptyString
                | [x] => json_out x
                | x :: rest => json_out x ++ ", " ++ elems rest
                end) items ++ "]"
  | JObj fields =>
      "{" ++ (fix members (l : list (text * jsonb)) : text :=
                match l with
                | [] => EmptyString
                | [(k, x)] => dquote ++ k ++ dquote ++ ": " ++ json_out x
                | (k, x) :: rest =>
                    dquote ++ k ++ dquote ++ ": " ++ json_out x ++ ", " ++ members rest
                end) fields ++ "}"
  end.

Fixpoint json_field (fields : list (text * jsonb)) (key : text) : option jsonb :=
  match fields with
  | [] => None
  | (k, v) :: rest => if String.eqb k key then Some v else json_field rest key
  end.

(** [j ->> key]: the member [key] of an object as text; [NULL] when [j] is
    [NULL] or not an object, when the key is missing, or when the member is
    the JSON null. *)
Definition json_get_text (j : option jsonb) (key : text) : option text :=
  match j with
  | Some (JObj fields) =>
      match json_field fields key with
      | Some JNull | None => None
      | Some (JStr s) => Some s
      | Some v => Some (json_out v)
      end
  | _ => None
  end.

(** ** Results of statements *)

(** The conditions the schema can raise. *)
Inductive sqlstate : Type :=
| not_null_violation          (* 23502 *)
| foreign_key_violation       (* 23503 *)
| unique_violation            (* 23505 *)
| check_violation             (* 23514 *)
| insufficient_privilege      (* 42501: the row violates a row-level security policy *)
| numeric_value_out_of_range. (* 22003 *)

Inductive result (A : Type) : Type :=
| Ok (a : A)
| Err (e : sqlstate).

Arguments Ok {A} a.
Arguments Err {A} e.

Definition bind {A B : Type} (r : result A) (k : A -> result B) : result B :=
  match r with
  | Ok a => k a
  | Err e => Err e
  end.

Notation "x <- r ;; k" := (bind r (fun x => k))
  (at level 61, r at next level, right associativity).

Definition is_ok {A : Type} (r : result A) : bool :=
  match r with
  | Ok _ => true
  | Err _ => false
  end.

(** The cast [::INTEGER] of a [bigint]: a value outside the 32-bit range
    raises [numeric_value_out_of_range]. *)
Definition int4_min : Z := -2147483648.
Definition int4_max : Z := 2147483647.

Definition int4 (z : Z) : result Z :=
  if (int4_min <=? z) && (z <=? int4_max) then Ok z
  else Err numeric_value_out_of_range.

(** ** The session *)

(** Who runs a statement.  [auth.uid()] is the tenant of the request's JWT,
    [NULL] for an anonymous request.  Row-level security is not applied to
    the owner of the tables: that is the role the [SECURITY DEFINER] trigger
    function and the referential actions run as, and Supabase's service
    role bypasses it in the same way. *)
Inductive session : Type :=
| table_owner
| authenticated (uid : uuid)
| anon.

Definition auth_uid (who : session) : option uuid :=
  match who with
  | authenticated uid => Some uid
  | _ => None
  end.

Definition bypass_rls (who : session) : bool :=
  match who with
  | table_owner => true
  | _ => false
  end.

(** ** Tables *)

(** A policy expression, evaluated for the session's [auth.uid()] and a row. *)
Definition policy (row : Type) := option uuid -> row -> SQL.sql_bool.

(** What the schema declares for a table: its keys, its constraints and, per
    command, the policy created for it ([None]: no policy for that command,
    and with row-level security enabled no row passes). *)
Class Table (row : Type) : Type := {
  pkey : row -> uuid;
  user_id : row -> option uuid;
  not_null : row -> list bool;
  checks : row -> list SQL.sql_bool;
  unique_clash : row -> row -> bool;
  select_using : option (policy row);
  insert_check : option (policy row);
  update_using : option (policy row);
  delete_using : option (policy row)
}.

Definition present {A : Type} (x : option A) : bool :=
  match x with
  | Some _ => true
  | None => false
  end.

(** [auth.uid() = user_id], the expression of every policy of the schema. *)
Definition own_row {row : Type} (owner : row -> option uuid) : policy row :=
  fun uid r => SQL.eq N.eqb uid (owner r).

(** *** profiles *)

Module Profiles.

Record row : Type := {
  id : uuid;
  user_id : option uuid;
  name : option text;
  email : option text;
  github_username : option text;
  linkedin_url : option text;
  skills : option jsonb;
  experience : option jsonb;
  education : option jsonb;
  career_goals : option jsonb;
  resume_text : option text;
  github_data : option jsonb;
  created_at : option timestamptz;
  updated_at : option timestamptz
}.

(** [UNIQUE(user_id)]: two rows clash when both hold the same non-null owner. *)
Definition unique_user_id (a b : row) : bool :=
  SQL.is_true (SQL.eq N.eqb (user_id a) (user_id b)).

End Profiles.

#[export] Instance profiles_table : Table Profiles.row := {|
  pkey := Profiles.id;
  user_id := Profiles.user_id;
  not_null := fun _ => [];
  checks := fun _ => [];
  unique_clash := Profiles.unique_user_id;
  select_using := Some (own_row Profiles.user_id);
  insert_check := Some (own_row Profiles.user_id);
  update_using := Some (own_row Profiles.user_id);
  delete_using := None
|}.

(** *** applications *)

Module Applications.

Record row : Type := {
  id : uuid;
  user_id : option uuid;
  job_title : option text;
  company : option text;
  job_url : option text;
  status : option text;
  applied_at : option timestamptz;
  updated_at : option timestamptz;
  notes : option text;
  resume_version : option text;
  cover_letter : option text
}.

Definition status_check (r : row) : SQL.sql_bool :=
  SQL.in_list (status r) ["applied"; "viewed"; "interview"; "offer"; "rejected"].

End Applications.

#[export] Instance applications_table : Table Applications.row := {|
  pkey := Applications.id;
  user_id := Applications.user_id;
  not_null := fun r => [present (Applications.job_title r); present (Applications.company r)];
  checks := fun r => [Applications.status_check r];
  unique_clash := fun _ _ => false;
  select_using := Some (own_row Applications.user_id);
  insert_check := Some (own_row Applications.user_id);
  update_using := Some (own_row Applications.user_id);
  delete_using := None
|}.

(** *** learning_progress *)

Module LearningProgress.

Record row : Type := {
  id : uuid;
  user_id : option uuid;
  roadmap_id : option text;
  milestone_id : option text;
  completed : option bool;
  time_spent_minutes : option Z;
  notes : option text;
  completed_at : option timestamptz;
  updated_at : option timestamptz
}.

(** [UNIQUE(user_id, milestone_id)]: two rows clash when both columns are
    non-null and equal in both rows. *)
Definition unique_user_milestone (a b : row) : bool :=
  SQL.is_true (SQL.and (SQL.eq N.eqb (user_id a) (user_id b))
                       (SQL.eq String.eqb (milestone_id a) (milestone_id b))).

End LearningProgress.

#[export] Instance learning_progress_table : Table LearningProgress.row := {|
  pkey := LearningProgress.id;
  user_id := LearningProgress.user_id;
  not_null := fun r => [present (LearningProgress.milestone_id r)];
  checks := fun _ => [];
  unique_clash := LearningProgress.unique_user_milestone;
  select_using := Some (own_row LearningProgress.user_id);
  insert_check := Some (own_row LearningProgress.user_id);
  update_using := Some (own_row LearningProgress.user_id);
  delete_using := None
|}.

(** *** wellness_logs *)

Module WellnessLogs.

Record row : Type := {
  id : uuid;
  user_id : option uuid;
  mood : option text;
  energy_level : option Z;
  sleep_hours : option decimal;
  stress_level : option Z;
  notes : option text;
  logged_at : option timestamptz
}.

Definition mood_check (r : row) : SQL.sql_bool :=
  SQL.in_list (mood r) ["great"; "good"; "neutral"; "low"; "struggling"].

Definition energy_level_check (r : row) : SQL.sql_bool :=
  SQL.between (energy_level r) 1 10.

Definition stress_level_check (r : row) : SQL.sql_bool :=
  SQL.between (stress_level r) 1 10.

End WellnessLogs.

#[export] Instance wellness_logs_table : Table WellnessLogs.row := {|
  pkey := WellnessLogs.id;
  user_id := WellnessLogs.user_id;
  not_null := fun _ => [];
  checks := fun r => [WellnessLogs.mood_check r;
                      WellnessLogs.energy_level_check r;
                      WellnessLogs.stress_level_check r];
  unique_clash := fun _ _ => false;
  select_using := Some (own_row WellnessLogs.user_id);
  insert_check := Some (own_row WellnessLogs.user_id);
  update_using := None;
  delete_using := None
|}.

(** *** saved_jobs *)

Module SavedJobs.

Record row : Type := {
  id : uuid;
  user_id : option uuid;
  job_title : option text;
  company : option text;
  location : option text;
  job_url : option text;
  salary : option text;
  skills_required : option jsonb;
  match_score : option decimal;
  source_platform : option text;
  saved_at : option timestamptz
}.

End SavedJobs.

#[export] Instance saved_jobs_table : Table SavedJobs.row := {|
  pkey := SavedJobs.id;
  user_id := SavedJobs.user_id;
  not_null := fun r => [present (SavedJobs.job_title r); present (SavedJobs.company r)];
  checks := fun _ => [];
  unique_clash := fun _ _ => false;
  select_using := Some (own_row SavedJobs.user_id);
  insert_check := Some (own_row SavedJobs.user_id);
  update_using := None;
  delete_using := Some (own_row SavedJobs.user_id)
|}.

(** *** interview_sessions *)

Module InterviewSessions.

Record row : Type := {
  id : uuid;
  user_id : option uuid;
  job_title : option text;
  company : option text;
  interview_type : option text;
  questions : option jsonb;
  answers : option jsonb;
  scores : option jsonb;
  overall_score : option decimal;
  feedback : option text;
  conducted_at : option timestamptz
}.

Definition interview_type_check (r : row) : SQL.sql_bool :=
  SQL.in_list (interview_type r) ["behavioral"; "technical"; "hr"; "case"].

End InterviewSessions.

#[export] Instance interview_sessions_table : Table InterviewSessions.row := {|
  pkey := InterviewSessions.id;
  user_id := InterviewSessions.user_id;
  not_null := fun _ => [];
  checks := fun r => [InterviewSessions.interview_type_check r];
  unique_clash := fun _ _ => false;
  select_using := Some (own_row InterviewSessions.user_id);
  insert_check := Some (own_row InterviewSessions.user_id);
  update_using := None;
  delete_using := None
|}.

(** *** auth.users

    The table of tenants belongs to Supabase's [auth] schema; the schema
    refers to its primary key [id] and the trigger reads [email] and
    [raw_user_meta_data]. *)

Module AuthUsers.

Record row : Type := {
  id : uuid;
  email : option text;
  raw_user_meta_data : option jsonb
}.

End AuthUsers.

(** ** Statements on one table *)

Section Statements.

Context {row : Type} {T : Table row}.

(** A row passes a command's policy when the session bypasses row-level
    security or the command has a policy whose expression is true. *)
Definition passes (p : option (policy row)) (who : session) (r : row) : bool :=
  bypass_rls who ||
  match p with
  | Some e => SQL.is_true (e (auth_uid who) r)
  | None => false
  end.

(** [user_id UUID REFERENCES auth.users(id)]: a non-null owner is a tenant. *)
Definition references_user (users : list uuid) (r : row) : bool :=
  match user_id r with
  | Some u => existsb (N.eqb u) users
  | None => true
  end.

Definition clashes (others : list row) (r : row) : bool :=
  existsb (fun o => N.eqb (pkey o) (pkey r) || unique_clash o r) others.

(** The constraints of the table on a new row [r], in the order the
    executor evaluates them: [NOT NULL], [CHECK], the unique indexes
    (primary key and [UNIQUE]), then the foreign key. *)
Definition constraints (users : list uuid) (others : list row) (r : row) : result unit :=
  if negb (forallb (fun b => b) (not_null r)) then Err not_null_violation
  else if negb (forallb SQL.not_false (checks r)) then Err check_violation
  else if clashes others r then Err unique_violation
  else if negb (references_user users r) then Err foreign_key_violation
  else Ok tt.

(** [INSERT INTO t VALUES (r)]: the [WITH CHECK] policy first, then the
    constraints. *)
Definition insert (who : session) (users : list uuid) (tbl : list row) (r : row)
  : result (list row) :=
  if negb (passes insert_check who r) then Err insufficient_privilege
  else _ <- constraints users tbl r ;; Ok (tbl ++ [r])%list.

(** The rows of [tbl] the session can see. *)
Definition visible (who : session) (tbl : list row) : list row :=
  filter (passes select_using who) tbl.

(** [SELECT * FROM t WHERE cond]. *)
Definition select (who : session) (tbl : list row) (cond : row -> bool) : list row :=
  filter cond (visible who tbl).

(** The rows [UPDATE t ... WHERE id = target] works on: those with that
    key which the session can see and update. *)
Definition targeted (who : session) (target : uuid) (r : row) : bool :=
  N.eqb (pkey r) target && passes select_using who r && passes update_using who r.

(** [UPDATE t SET ... WHERE id = target]: [set] gives the new tuple.  A row
    the session cannot see or update is not a target (zero rows are
    updated); the new tuple must pass the policy ([USING] stands for the
    missing [WITH CHECK]) and the constraints against the other rows. *)
Definition update (who : session) (users : list uuid) (tbl : list row)
  (target : uuid) (set : row -> row) : result (list row) :=
  match filter (targeted who target) tbl with
  | [] => Ok tbl
  | r :: _ =>
      let r' := set r in
      if negb (passes update_using who r') then Err insufficient_privilege
      else
        _ <- constraints users (filter (fun o => negb (targeted who target o)) tbl) r' ;;
        Ok (map (fun o => if targeted who target o then r' else o) tbl)
  end.

(** [DELETE FROM t WHERE cond]: removes the rows the session can see and
    delete that satisfy [cond]. *)
Definition delete (who : session) (tbl : list row) (cond : row -> bool) : list row :=
  filter (fun r => negb (passes select_using who r && passes delete_using who r && cond r)) tbl.

(** [ON DELETE CASCADE]: the referential action removes the rows that
    reference the deleted tenant. *)
Definition cascade (uid : uuid) (tbl : list row) : list row :=
  filter (fun r => negb (SQL.is_true (SQL.eq N.eqb (user_id r) (Some uid)))) tbl.

(** The rows owned by a tenant. *)
Definition owned_by (uid : uuid) (tbl : list row) : list row :=
  filter (fun r => SQL.is_true (SQL.eq N.eqb (user_id r) (Some uid))) tbl.

End Statements.

(** ** The store *)

Record store : Type := {
  auth_users : list AuthUsers.row;
  profiles : list Profiles.row;
  applications : list Applications.row;
  learning_progress : list LearningProgress.row;
  wellness_logs : list WellnessLogs.row;
  saved_jobs : list SavedJobs.row;
  interview_sessions : list InterviewSessions.row
}.

Definition empty_store : store :=
  {| auth_users := []; profiles := []; applications := []; learning_progress := [];
     wellness_logs := []; saved_jobs := []; interview_sessions := [] |}.

(** The six owned entities. *)
Inductive entity : Type :=
| Profile
| Application
| LearningProgress
| WellnessLog
| SavedJob
| InterviewSession.

Definition row_of (e : entity) : Type :=
  match e with
  | Profile => Profiles.row
  | Application => Applications.row
  | LearningProgress => LearningProgress.row
  | WellnessLog => WellnessLogs.row
  | SavedJob => SavedJobs.row
  | InterviewSession => InterviewSessions.row
  end.

#[export] Instance entity_table (e : entity) : Table (row_of e) :=
  match e with
  | Profile => profiles_table
  | Application => applications_table
  | LearningProgress => learning_progress_table
  | WellnessLog => wellness_logs_table
  | SavedJob => saved_jobs_table
  | InterviewSession => interview_sessions_table
  end.

Definition rows (s : store) (e : entity) : list (row_of e) :=
  match e with
  | Profile => profiles s
  | Application => applications s
  | LearningProgress => learning_progress s
  | WellnessLog => wellness_logs s
  | SavedJob => saved_jobs s
  | InterviewSession => interview_sessions s
  end.

Definition with_rows (s : store) (e : entity) : list (row_of e) -> store :=
  match e with
  | Profile => fun t =>
      {| auth_users := auth_users s; profiles := t; applications := applications s;
         learning_progress := learning_progress s; wellness_logs := wellness_logs s;
         saved_jobs := saved_jobs s; interview_sessions := interview_sessions s |}
  | Application => fun t =>
      {| auth_users := auth_users s; profiles := profiles s; applications := t;
         learning_progress := learning_progress s; wellness_logs := wellness_logs s;
         saved_jobs := saved_jobs s; interview_sessions := interview_sessions s |}
  | LearningProgress => fun t =>
      {| auth_users := auth_users s; profiles := profiles s; applications := applications s;
         learning_progress := t; wellness_logs := wellness_logs s;
         saved_jobs := saved_jobs s; interview_sessions := interview_sessions s |}
  | WellnessLog => fun t =>
      {| auth_users := auth_users s; profiles := profiles s; applications := applications s;
         learning_progress := learning_progress s; wellness_logs := t;
         saved_jobs := saved_jobs s; interview_sessions := interview_sessions s |}
  | SavedJob => fun t =>
      {| auth_users := auth_users s; profiles := profiles s; applications := applications s;
         learning_progress := learning_progress s; wellness_logs := wellness_logs s;
         saved_jobs := t; interview_sessions := interview_sessions s |}
  | InterviewSession => fun t =>
      {| auth_users := auth_users s; profiles := profiles s; applications := applications s;
         learning_progress := learning_progress s; wellness_logs := wellness_logs s;
         saved_jobs := saved_jobs s; interview_sessions := t |}
  end.

Definition tenants (s : store) : list uuid := map AuthUsers.id (auth_users s).

(** ** Tenant creation and deletion *)

(** What the column defaults draw while one statement runs:
    [gen_random_uuid()] and [NOW()]. *)
Record defaults : Type := {
  gen_random_uuid : uuid;
  now : timestamptz
}.

(** The tuple [handle_new_user()] inserts: [user_id], [email] and [name]
    come from the new row of [auth.users], the other columns take their
    defaults. *)
Definition new_profile (d : defaults) (new : AuthUsers.row) : Profiles.row :=
  {| Profiles.id := gen_random_uuid d;
     Profiles.user_id := Some (AuthUsers.id new);
     Profiles.name := json_get_text (AuthUsers.raw_user_meta_data new) "name";
     Profiles.email := AuthUsers.email new;
     Profiles.github_username := None;
     Profiles.linkedin_url := None;
     Profiles.skills := Some (JArr []);
     Profiles.experience := Some (JArr []);
     Profiles.education := Some (JArr []);
     Profiles.career_goals := Some (JArr []);
     Profiles.resume_text := None;
     Profiles.github_data := None;
     Profiles.created_at := Some (now d);
     Profiles.updated_at := Some (now d) |}.

(** [handle_new_user()], the [AFTER INSERT] row trigger on [auth.users]:
    inserts the profile of the new tenant.  The function is
    [SECURITY DEFINER], so the insert runs as the owner of the tables. *)
Definition handle_new_user (d : defaults) (new : AuthUsers.row) (s : store) : result store :=
  t <- insert table_owner (tenants s) (profiles s) (new_profile d new) ;;
  Ok (with_rows s Profile t).

Definition with_users (s : store) (us : list AuthUsers.row) : store :=
  {| auth_users := us; profiles := profiles s; applications := applications s;
     learning_progress := learning_progress s; wellness_logs := wellness_logs s;
     saved_jobs := saved_jobs s; interview_sessions := interview_sessions s |}.

(** [INSERT INTO auth.users]: the primary key of [auth.users], then the
    trigger [on_auth_user_created]; an error of the trigger aborts the
    statement. *)
Definition create_user (d : defaults) (new : AuthUsers.row) (s : store) : result store :=
  if existsb (N.eqb (AuthUsers.id new)) (tenants s) then Err unique_violation
  else handle_new_user d new (with_users s (auth_users s ++ [new])%list).

(** [DELETE FROM auth.users WHERE id = uid], with the cascade into the six
    tables that reference it. *)
Definition delete_user (uid : uuid) (s : store) : store :=
  {| auth_users := filter (fun u => negb (N.eqb (AuthUsers.id u) uid)) (auth_users s);
     profiles := cascade uid (profiles s);
     applications := cascade uid (applications s);
     learning_progress := cascade uid (learning_progress s);
     wellness_logs := cascade uid (wellness_logs s);
     saved_jobs := cascade uid (saved_jobs s);
     interview_sessions := cascade uid (interview_sessions s) |}.

(** ** Statements on the store *)

Inductive statement : Type :=
| CreateUser (d : defaults) (new : AuthUsers.row)
| DeleteUser (uid : uuid)
| Insert (e : entity) (who : session) (r : row_of e)
| Update (e : entity) (who : session) (target : uuid) (set : row_of e -> row_of e)
| Delete (e : entity) (who : session) (cond : row_of e -> bool).

Definition exec (s : store) (st : statement) : result store :=
  match st with
  | CreateUser d new => create_user d new s
  | DeleteUser uid => Ok (delete_user uid s)
  | Insert e who r =>
      t <- insert who (tenants s) (rows s e) r ;; Ok (with_rows s e t)
  | Update e who target set =>
      t <- update who (tenants s) (rows s e) target set ;; Ok (with_rows s e t)
  | Delete e who cond => Ok (with_rows s e (delete who (rows s e) cond))
  end.

(** A script of statements; a failed statement changes nothing and the
    script goes on. *)
Definition exec_keep (s : store) (st : statement) : store :=
  match exec s st with
  | Ok s' => s'
  | Err _ => s
  end.

Definition run (script : list statement) : store := fold_left exec_keep script empty_store.

(** The stores the schema can reach from the empty one. *)
Inductive reachable : store -> Prop :=
| reachable_empty : reachable empty_store
| reachable_step s st s' : reachable s -> exec s st = Ok s' -> reachable s'.

(** ** Helper functions *)

(** [COUNT( * ) FILTER (WHERE cond)], a [bigint]. *)
Definition count {A : Type} (cond : A -> bool) (l : list A) : Z :=
  Z.of_nat (List.length (filter cond l)).

Definition status_is (v : text) (r : Applications.row) : bool :=
  SQL.is_true (SQL.eq String.eqb (Applications.status r) (Some v)).

Record application_stats : Type := {
  total : Z;
  applied : Z;
  interviews : Z;
  offers : Z;
  rejected : Z
}.

(** [get_application_stats(p_user_id)].  The function is [SECURITY INVOKER]
    (the default), so it reads the rows of [applications] its caller can
    see. *)
Definition get_application_stats (who : session) (s : store) (p_user_id : option uuid)
  : result application_stats :=
  let from :=
    filter (fun r => SQL.is_true (SQL.eq N.eqb (Applications.user_id r) p_user_id))
           (visible who (applications s)) in
  c_total <- int4 (count (fun _ => true) from) ;;
  c_applied <- int4 (count (status_is "applied") from) ;;
  c_interviews <- int4 (count (status_is "interview") from) ;;
  c_offers <- int4 (count (status_is "offer") from) ;;
  c_rejected <- int4 (count (status_is "rejected") from) ;;
  Ok {| total := c_total; applied := c_applied; interviews := c_interviews;
        offers := c_offers; rejected := c_rejected |}.

Section Streak.

(** The cast [::DATE] of an instant in the session's [TimeZone], and
    [CURRENT_DATE]. *)
Variable to_date : timestamptz -> date.
Variable current_date : date.

(** The condition of the [EXISTS] subquery. *)
Definition qualifies (p_user_id : option uuid) (check_date : date)
  (r : LearningProgress.row) : bool :=
  SQL.is_true
    (SQL.and
       (SQL.and (SQL.eq N.eqb (LearningProgress.user_id r) p_user_id)
                (SQL.eq Z.eqb (option_map to_date (LearningProgress.updated_at r))
                        (Some check_date)))
       (SQL.eq Bool.eqb (LearningProgress.completed r) (Some true))).

Definition has_activity (from : list LearningProgress.row) (p_user_id : option uuid)
  (check_date : date) : bool :=
  existsb (qualifies p_user_id check_date) from.

(** The [LOOP] of [get_learning_streak], run for at most [fuel] iterations:
    [None] when the fuel is used up before the loop exits.  The counter is
    a plpgsql [INTEGER]; it counts distinct days of stored instants, of
    which the range of [TIMESTAMPTZ] has fewer than [2^31], so its
    increment is the plain one. *)
Fixpoint streak_loop (fuel : nat) (from : list LearningProgress.row)
  (p_user_id : option uuid) (streak : Z) (check_date : date) : option Z :=
  match fuel with
  | O => None
  | S fuel' =>
      if negb (has_activity from p_user_id check_date) then Some streak
      else streak_loop fuel' from p_user_id (streak + 1) (check_date - 1)
  end.

(** [get_learning_streak(p_user_id)], [SECURITY INVOKER] as well. *)
Definition get_learning_streak (fuel : nat) (who : session) (s : store)
  (p_user_id : option uuid) : option Z :=
  streak_loop fuel (visible who (learning_progress s)) p_user_id 0 current_date.

End Streak.

(** [::DATE] and a day's first instant when the session's [TimeZone] is UTC. *)
Definition utc_date (ts : timestamptz) : date := ts / 86400000000.
Definition utc_midnight (d : date) : timestamptz := d * 86400000000.

(** ** Auxiliary notions for the properties *)

(** The shape shared by the six tables: reading and inserting are guarded by
    [auth.uid() = user_id]; updating and deleting either have no policy or
    that same one; the [UNIQUE] clash is symmetric. *)
Record owner_policies {row : Type} (T : Table row) : Prop := {
  op_select : select_using = Some (own_row user_id);
  op_insert : insert_check = Some (own_row user_id);
  op_update : update_using = None \/ update_using = Some (own_row user_id);
  op_delete : delete_using = None \/ delete_using = Some (own_row user_id);
  op_clash_sym : forall a b : row, unique_clash a b = unique_clash b a
}.

Definition entity_eqb (a b : entity) : bool :=
  match a, b with
  | Profile, Profile | Application, Application
  | LearningProgress, LearningProgress | WellnessLog, WellnessLog
  | SavedJob, SavedJob | InterviewSession, InterviewSession => true
  | _, _ => false
  end.

(** A nullable value is absent, or present and satisfying [P]. *)
Definition absent_or {A : Type} (P : A -> Prop) (x : option A) : Prop :=
  match x with
  | None => True
  | Some v => P v
  end.

(** The statement is one a tenant's session issues on a table. *)
Definition issued_by (who : session) (st : statement) : Prop :=
  match st with
  | Insert _ w _ | Update _ w _ _ | Delete _ w _ => w = who
  | CreateUser _ _ | DeleteUser _ => False
  end.

(** A nullable value is present and satisfies [P]. *)
Definition present_and {A : Type} (P : A -> Prop) (x : option A) : Prop :=
  match x with
  | None => False
  | Some v => P v
  end.

(** The [status] of the application is [NULL]. *)
Definition status_absent (r : Applications.row) : bool :=
  negb (present (Applications.status r)).

(** ** Sample data *)

Module Sample.

Definition alice : AuthUsers.row :=
  {| AuthUsers.id := 1%N;
     AuthUsers.email := Some "alice@example.org";
     AuthUsers.raw_user_meta_data := Some (JObj [("name", JStr "Alice")]) |}.

Definition bob : AuthUsers.row :=
  {| AuthUsers.id := 2%N;
     AuthUsers.email := Some "bob@example.org";
     AuthUsers.raw_user_meta_data := None |}.

Definition at_signup (profile_id : uuid) : defaults :=
  {| gen_random_uuid := profile_id; now := 0 |}.

(** Both tenants signed up; nothing else happened. *)
Definition signed_up : store :=
  run [CreateUser (at_signup 101%N) alice; CreateUser (at_signup 102%N) bob].

Definition wellness_log (i : uuid) (owner : option uuid) (mood : option text)
  (energy stress : option Z) : WellnessLogs.row :=
  {| WellnessLogs.id := i;
     WellnessLogs.user_id := owner;
     WellnessLogs.mood := mood;
     WellnessLogs.energy_level := energy;
     WellnessLogs.sleep_hours := None;
     WellnessLogs.stress_level := stress;
     WellnessLogs.notes := None;
     WellnessLogs.logged_at := Some 0 |}.

Definition interview (i : uuid) (owner : option uuid) (kind : option text)
  : InterviewSessions.row :=
  {| InterviewSessions.id := i;
     InterviewSessions.user_id := owner;
     InterviewSessions.job_title := None;
     InterviewSessions.company := None;
     InterviewSessions.interview_type := kind;
     InterviewSessions.questions := Some (JArr []);
     InterviewSessions.answers := Some (JArr []);
     InterviewSessions.scores := Some (JArr []);
     InterviewSessions.overall_score := None;
     InterviewSessions.feedback := None;
     InterviewSessions.conducted_at := Some 0 |}.

Definition application (i : uuid) (owner : option uuid) (status : option text)
  : Applications.row :=
  {| Applications.id := i;
     Applications.user_id := owner;
     Applications.job_title := Some "Engineer";
     Applications.company := Some "Acme";
     Applications.job_url := None;
     Applications.status := status;
     Applications.applied_at := Some 0;
     Applications.updated_at := Some 0;
     Applications.notes := None;
     Applications.resume_version := None;
     Applications.cover_letter := None |}.

Definition progress (i : uuid) (owner : option uuid) (milestone : text)
  (completed : option bool) (updated : option timestamptz) : LearningProgress.row :=
  {| LearningProgress.id := i;
     LearningProgress.user_id := owner;
     LearningProgress.roadmap_id := None;
     LearningProgress.milestone_id := Some milestone;
     LearningProgress.completed := completed;
     LearningProgress.time_spent_minutes := Some 0;
     LearningProgress.notes := None;
     LearningProgress.completed_at := None;
     LearningProgress.updated_at := updated |}.

(** Alice applied once and the row's [status] was given as [NULL]. *)
Definition with_unset_status : store :=
  run [CreateUser (at_signup 101%N) alice;
       Insert Application (authenticated 1%N) (application 21%N (Some 1%N) None)].

(** Alice completed a milestone on day 20000 and on each of the three days
    before; on day 19996 she only touched an unfinished one, and on day
    19995 she completed one more.  Bob completed one on day 19996. *)
Definition four_days : store :=
  run [CreateUser (at_signup 101%N) alice;
       CreateUser (at_signup 102%N) bob;
       Insert LearningProgress (authenticated 1%N)
         (progress 31%N (Some 1%N) "m1" (Some true) (Some (utc_midnight 20000 + 5)));
       Insert LearningProgress (authenticated 1%N)
         (progress 32%N (Some 1%N) "m2" (Some true) (Some (utc_midnight 19999)));
       Insert LearningProgress (authenticated 1%N)
         (progress 33%N (Some 1%N) "m3" (Some true) (Some (utc_midnight 19998 + 7)));
       Insert LearningProgress (authenticated 1%N)
         (progress 34%N (Some 1%N) "m4" (Some true) (Some (utc_midnight 19997 + 1)));
       Insert LearningProgress (authenticated 1%N)
         (progress 35%N (Some 1%N) "m5" (Some false) (Some (utc_midnight 19996)));
       Insert LearningProgress (authenticated 1%N)
         (progress 36%N (Some 1%N) "m6" (Some true) (Some (utc_midnight 19995)));
       Insert LearningProgress (authenticated 2%N)
         (progress 37%N (Some 2%N) "m1" (Some true) (Some (utc_midnight 19996)))].

(** Alice signed up and applied four times: applied, applied, interview,
    offer. *)
Definition four_applications : store :=
  run [CreateUser (at_signup 101%N) alice;
       Insert Application (authenticated 1%N) (application 41%N (Some 1%N) (Some "applied"));
       Insert Application (authenticated 1%N) (application 42%N (Some 1%N) (Some "applied"));
       Insert Application (authenticated 1%N) (application 43%N (Some 1%N) (Some "interview"));
       Insert Application (authenticated 1%N) (application 44%N (Some 1%N) (Some "offer"))].

End Sample.

(** ** Integrity of a table and of the store *)

Section Integrity.

Context {row : Type} {T : Table row}.

(** Two rows cannot both be in the table: same primary key, or a [UNIQUE]
    clash. *)
Definition clash (a b : row) : bool :=
  N.eqb (pkey a) (pkey b) || unique_clash a b.

(** The row satisfies the [NOT NULL] and [CHECK] constraints and its owner,
    if any, is a tenant. *)
Definition row_ok (users : list uuid) (r : row) : Prop :=
  forallb (fun b => b) (not_null r) = true
  /\ forallb SQL.not_false (checks r) = true
  /\ references_user users r = true.

Definition table_ok (users : list uuid) (tbl : list row) : Prop :=
  Forall (row_ok users) tbl /\ ForallOrdPairs (fun a b => clash a b = false) tbl.

End Integrity.

Definition store_ok (s : store) : Prop :=
  NoDup (tenants s) /\ forall e, table_ok (tenants s) (rows s e).

(** The row is the progress row of tenant [t] for milestone [m]. *)
Definition has_milestone (t : uuid) (m : text) (r : LearningProgress.row) : bool :=
  SQL.is_true (SQL.eq N.eqb (LearningProgress.user_id r) (Some t))
  && SQL.is_true (SQL.eq String.eqb (LearningProgress.milestone_id r) (Some m)).

(** ** Notions for the learning streak *)

(** Tenant [t] has a progress row with [completed = true] whose
    [updated_at] falls on calendar day [day]. *)
Definition active_on (to_date : timestamptz -> date) (s : store) (t : uuid)
  (day : date) : Prop :=
  exists r ts,
    In r (learning_progress s)
    /\ LearningProgress.user_id r = Some t
    /\ LearningProgress.completed r = Some true
    /\ LearningProgress.updated_at r = Some ts
    /\ to_date ts = day.

(** The row qualifies for some day not after [day]. *)
Definition qualifies_upto (to_date : timestamptz -> date) (p_user_id : option uuid)
  (day : date) (r : LearningProgress.row) : bool :=
  SQL.is_true (SQL.eq N.eqb (LearningProgress.user_id r) p_user_id)
  && SQL.is_true (SQL.eq Bool.eqb (LearningProgress.completed r) (Some true))
  && match LearningProgress.updated_at r with
     | Some ts => to_date ts <=? day
     | None => false
     end.

(** ** Further sample data *)

Module Scenario.

Definition saved_job (i : uuid) (owner : option uuid) (title company : option text)
  : SavedJobs.row :=
  {| SavedJobs.id := i;
     SavedJobs.user_id := owner;
     SavedJobs.job_title := title;
     SavedJobs.company := company;
     SavedJobs.location := None;
     SavedJobs.job_url := None;
     SavedJobs.salary := None;
     SavedJobs.skills_required := Some (JArr []);
     SavedJobs.match_score := None;
     SavedJobs.source_platform := None;
     SavedJobs.saved_at := Some 0 |}.

(** Alice and Bob signed up; Alice saved two jobs and logged her wellness
    once, Bob saved one job. *)
Definition with_saved_jobs : store :=
  run [CreateUser (Sample.at_signup 101%N) Sample.alice;
       CreateUser (Sample.at_signup 102%N) Sample.bob;
       Insert SavedJob (authenticated 1%N)
         (saved_job 51%N (Some 1%N) (Some "Engineer") (Some "Acme"));
       Insert SavedJob (authenticated 1%N)
         (saved_job 52%N (Some 1%N) (Some "Analyst") (Some "Globex"));
       Insert SavedJob (authenticated 2%N)
         (saved_job 53%N (Some 2%N) (Some "Engineer") (Some "Acme"));
       Insert WellnessLog (authenticated 1%N)
         (Sample.wellness_log 61%N (Some 1%N) (Some "good") (Some 7) (Some 3))].

End Scenario.

(** The rows [get_application_stats(p_user_id)] aggregates for a session. *)
Definition stats_rows (who : session) (s : store) (p_user_id : option uuid)
  : list Applications.row :=
  filter (fun r => SQL.is_true (SQL.eq N.eqb (Applications.user_id r) p_user_id))
         (visible who (applications s)).

(** 1 when the condition holds for the row, else 0. *)
Definition indicator {A : Type} (cond : A -> bool) (r : A) : Z :=
  if cond r then 1 else 0.

(** ** Stores reached without the owner role *)

(** The statement is the creation or deletion of a tenant, or is run by a
    session that is subject to row-level security. *)
Definition tenant_level (st : statement) : Prop :=
  match st with
  | CreateUser _ _ | DeleteUser _ => True
  | Insert _ who _ | Update _ who _ _ | Delete _ who _ => bypass_rls who = false
  end.

Inductive tenant_reachable : store -> Prop :=
| tenant_reachable_empty : tenant_reachable empty_store
| tenant_reachable_step s st s' :
    tenant_reachable s -> tenant_level st -> exec s st = Ok s' -> tenant_reachable s'.

(** * Properties *)

(** ** Three-valued logic *)

Lemma is_true_eq_uuid (x y : option uuid) :
  SQL.is_true (SQL.eq N.eqb x y) = true <-> exists u, x = Some u /\ y = Some u.
Proof.
  destruct x as [a|], y as [b|]; simpl; split;
    try discriminate; try (intros (u & Hx & Hy); discriminate).
  - destruct (N.eqb_spec a b) as [->|Hab]; [eauto | discriminate].
  - intros (u & Hx & Hy). injection Hx as ->. injection Hy as ->.
    now rewrite N.eqb_refl.
Qed.

Lemma is_true_eq_some (x : option uuid) (u : uuid) :
  SQL.is_true (SQL.eq N.eqb x (Some u)) = true <-> x = Some u.
Proof.
  rewrite is_true_eq_uuid. split.
  - intros (v & -> & Hv). now injection Hv as ->.
  - intros ->. eauto.
Qed.

Lemma is_true_some_eq (x : option uuid) (u : uuid) :
  SQL.is_true (SQL.eq N.eqb (Some u) x) = true <-> x = Some u.
Proof.
  rewrite is_true_eq_uuid. split.
  - intros (v & Hv & ->). now injection Hv as ->.
  - intros ->. eauto.
Qed.

Lemma is_true_and (a b : SQL.sql_bool) :
  SQL.is_true (SQL.and a b) = SQL.is_true a && SQL.is_true b.
Proof. destruct a as [[|]|], b as [[|]|]; reflexivity. Qed.

Lemma eq_uuid_sym (x y : option uuid) : SQL.eq N.eqb x y = SQL.eq N.eqb y x.
Proof. destruct x, y; simpl; trivial. now rewrite N.eqb_sym. Qed.

Lemma eq_text_sym (x y : option text) : SQL.eq String.eqb x y = SQL.eq String.eqb y x.
Proof. destruct x, y; simpl; trivial. now rewrite String.eqb_sym. Qed.

(** ** Policies *)

Lemma entity_owner_policies (e : entity) : owner_policies (entity_table e).
Proof.
  destruct e; constructor; simpl; auto; intros a b.
  - unfold Profiles.unique_user_id. now rewrite eq_uuid_sym.
  - unfold LearningProgress.unique_user_milestone.
    now rewrite eq_uuid_sym, eq_text_sym.
Qed.

Section OwnerPolicies.

Context {row : Type} {T : Table row}.
Hypothesis HP : owner_policies T.

Lemma passes_own (t : uuid) (r : row) :
  passes (Some (own_row user_id)) (authenticated t) r = true <-> user_id r = Some t.
Proof. unfold passes, own_row. simpl. apply is_true_some_eq. Qed.

Lemma passes_select (t : uuid) (r : row) :
  passes select_using (authenticated t) r = true <-> user_id r = Some t.
Proof. rewrite (op_select _ HP). apply passes_own. Qed.

Lemma passes_insert (t : uuid) (r : row) :
  passes insert_check (authenticated t) r = true <-> user_id r = Some t.
Proof. rewrite (op_insert _ HP). apply passes_own. Qed.

Lemma passes_update (t : uuid) (r : row) :
  passes update_using (authenticated t) r = true -> user_id r = Some t.
Proof.
  destruct (op_update _ HP) as [-> | ->]; [discriminate | apply passes_own].
Qed.

Lemma passes_delete (t : uuid) (r : row) :
  passes delete_using (authenticated t) r = true -> user_id r = Some t.
Proof.
  destruct (op_delete _ HP) as [-> | ->]; [discriminate | apply passes_own].
Qed.

Lemma passes_owner_role (p : option (policy row)) (r : row) :
  passes p table_owner r = true.
Proof. reflexivity. Qed.

(** What a tenant sees of a table is what it owns. *)
Lemma visible_authenticated (t : uuid) (tbl : list row) :
  visible (authenticated t) tbl = owned_by t tbl.
Proof.
  unfold visible, owned_by. apply filter_ext. intros r.
  apply eq_true_iff_eq. now rewrite passes_select, is_true_eq_some.
Qed.

Lemma visible_owner_role (tbl : list row) : visible table_owner tbl = tbl.
Proof.
  unfold visible. induction tbl as [|r tbl IH]; simpl; [reflexivity | now rewrite IH].
Qed.

Lemma visible_anon (tbl : list row) : visible anon tbl = [].
Proof.
  unfold visible. rewrite (op_select _ HP).
  induction tbl as [|r tbl IH]; simpl; [reflexivity | exact IH].
Qed.

Lemma owned_by_app (t : uuid) (a b : list row) :
  owned_by t (a ++ b) = (owned_by t a ++ owned_by t b)%list.
Proof. apply filter_app. Qed.

Lemma owned_by_In (t : uuid) (tbl : list row) (r : row) :
  In r (owned_by t tbl) <-> In r tbl /\ user_id r = Some t.
Proof. unfold owned_by. now rewrite filter_In, is_true_eq_some. Qed.

Lemma owned_by_other (t u : uuid) (r : row) :
  user_id r = Some u -> u <> t -> owned_by t [r] = [].
Proof.
  intros Hr Hne. unfold owned_by. simpl.
  destruct (SQL.is_true (SQL.eq N.eqb (user_id r) (Some t))) eqn:E; [|reflexivity].
  apply is_true_eq_some in E. congruence.
Qed.

Lemma owned_by_cascade (t u : uuid) (tbl : list row) :
  owned_by t (cascade u tbl) = if N.eqb t u then [] else owned_by t tbl.
Proof.
  unfold owned_by, cascade.
  induction tbl as [|r tbl IH]; simpl; [now destruct (N.eqb t u)|].
  destruct (SQL.is_true (SQL.eq N.eqb (user_id r) (Some u))) eqn:Eu; simpl.
  - apply is_true_eq_some in Eu. rewrite IH.
    destruct (N.eqb_spec t u) as [->|Hne]; [reflexivity|].
    destruct (SQL.is_true (SQL.eq N.eqb (user_id r) (Some t))) eqn:Et; [|reflexivity].
    apply is_true_eq_some in Et. congruence.
  - rewrite IH. destruct (N.eqb_spec t u) as [->|Hne].
    + now rewrite Eu.
    + reflexivity.
Qed.

End OwnerPolicies.

(** ** The store as a family of tables *)

Lemma entity_eqb_eq (a b : entity) : entity_eqb a b = true -> a = b.
Proof. destruct a, b; simpl; congruence. Qed.

(** Case analysis on whether two tables are the same one. *)
Ltac same_table e e' :=
  let E := fresh "E" in
  destruct (entity_eqb e e') eqn:E;
  [apply entity_eqb_eq in E; subst e' | idtac].

Lemma rows_with_rows_same (s : store) (e : entity) (t : list (row_of e)) :
  rows (with_rows s e t) e = t.
Proof. destruct e; reflexivity. Qed.

Lemma rows_with_rows_other (s : store) (e e' : entity) (t : list (row_of e)) :
  entity_eqb e e' = false -> rows (with_rows s e t) e' = rows s e'.
Proof. destruct e, e'; simpl; intros H; try discriminate; reflexivity. Qed.

Lemma tenants_with_rows (s : store) (e : entity) (t : list (row_of e)) :
  tenants (with_rows s e t) = tenants s.
Proof. destruct e; reflexivity. Qed.

Lemma rows_delete_user (s : store) (uid : uuid) (e : entity) :
  rows (delete_user uid s) e = cascade uid (rows s e).
Proof. destruct e; reflexivity. Qed.

(** An accepted insert appends the row to its table and touches nothing
    else. *)
Lemma insert_ok_inv {row : Type} {T : Table row} (who : session) (users : list uuid)
  (tbl tbl' : list row) (r : row) :
  insert who users tbl r = Ok tbl' ->
  tbl' = (tbl ++ [r])%list /\ passes insert_check who r = true
  /\ constraints users tbl r = Ok tt.
Proof.
  unfold insert. destruct (passes insert_check who r); simpl; [|discriminate].
  destruct (constraints users tbl r) as [[]|err]; simpl; [|discriminate].
  intros H. injection H as <-. auto.
Qed.

Lemma exec_insert_inv (e : entity) (who : session) (s s' : store) (r : row_of e) :
  exec s (Insert e who r) = Ok s' ->
  s' = with_rows s e (rows s e ++ [r])%list /\ passes insert_check who r = true
  /\ constraints (tenants s) (rows s e) r = Ok tt.
Proof.
  simpl. destruct (insert who (tenants s) (rows s e) r) as [t|err] eqn:E; simpl;
    [|discriminate].
  intros H. injection H as <-. apply insert_ok_inv in E as (-> & Hp & Hc). auto.
Qed.

(** ** Reads are scoped to the calling tenant (C1) *)

Lemma select_In_owner (e : entity) (t : uuid) (tbl : list (row_of e))
  (cond : row_of e -> bool) (x : row_of e) :
  In x (select (authenticated t) tbl cond) -> user_id x = Some t.
Proof.
  unfold select. rewrite filter_In.
  rewrite (visible_authenticated (entity_owner_policies e)), owned_by_In.
  tauto.
Qed.

Lemma select_app_other (e : entity) (t u : uuid) (tbl : list (row_of e))
  (cond : row_of e -> bool) (r : row_of e) :
  user_id r = Some u -> u <> t ->
  select (authenticated t) (tbl ++ [r]) cond = select (authenticated t) tbl cond.
Proof.
  intros Hr Hne. unfold select.
  rewrite !(visible_authenticated (entity_owner_policies e)), owned_by_app.
  rewrite (owned_by_other t u r Hr Hne).
  now rewrite app_nil_r.
Qed.

(** C1.  Let tenant [T1] differ from tenant [T2] and let a row [r] owned by
    [T1] be created in any of the six tables (by whatever session the insert
    was accepted for).  Then every row a [SELECT] issued as [T2] returns from
    that table, in any store, is owned by [T2]; [r] is not returned; and what
    [T2] reads, from this table and from every other one and under any
    [WHERE] condition, is exactly what it read before [r] existed.  A read
    returns a list of rows and has no error outcome: the foreign row is
    simply absent (not found), never refused. *)
Theorem read_isolation (e : entity) (T1 T2 : uuid) (who : session) (s s' : store)
  (r : row_of e) (cond : row_of e -> bool)
  (Hdistinct : T1 <> T2)
  (Hown : user_id r = Some T1)
  (Hcreate : exec s (Insert e who r) = Ok s') :
  (forall (s0 : store) (x : row_of e),
     In x (select (authenticated T2) (rows s0 e) cond) -> user_id x = Some T2)
  /\ ~ In r (select (authenticated T2) (rows s' e) cond)
  /\ (forall (e' : entity) (cond' : row_of e' -> bool),
        select (authenticated T2) (rows s' e') cond'
        = select (authenticated T2) (rows s e') cond').
Proof.
  apply exec_insert_inv in Hcreate as (-> & _ & _).
  split; [|split].
  - intros s0 x. apply select_In_owner.
  - intros Hin. apply select_In_owner in Hin. congruence.
  - intros e' cond'. same_table e e'.
    + rewrite rows_with_rows_same. now apply select_app_other with (u := T1).
    + now rewrite rows_with_rows_other.
Qed.

(** ** Deleting a tenant cascades (C7) *)

(** C7.  [DELETE FROM auth.users WHERE id = t] leaves, in each of the six
    tables, exactly the rows that do not reference [t], in their order: every
    row owned by [t] is gone, and the rows of any other tenant [t'] (and the
    rows without an owner) are the ones that were there.  The tenant itself
    is no longer in [auth.users]. *)
Theorem delete_user_cascades (s : store) (t : uuid) (e : entity) :
  rows (delete_user t s) e
  = filter (fun r => negb (SQL.is_true (SQL.eq N.eqb (user_id r) (Some t)))) (rows s e)
  /\ owned_by t (rows (delete_user t s) e) = []
  /\ (forall t', owned_by t' (rows (delete_user t s) e)
                 = if N.eqb t' t then [] else owned_by t' (rows s e))
  /\ ~ In t (tenants (delete_user t s)).
Proof.
  rewrite rows_delete_user. split; [reflexivity|]. split; [|split].
  - rewrite owned_by_cascade. now rewrite N.eqb_refl.
  - intros t'. apply owned_by_cascade.
  - unfold tenants. simpl. rewrite in_map_iff. intros (u & Hid & Hin).
    apply filter_In in Hin as (_ & Hne). rewrite Hid, N.eqb_refl in Hne. discriminate.
Qed.

(** ** What an insert needs *)

Lemma constraints_ok_iff {row : Type} {T : Table row} (users : list uuid)
  (others : list row) (r : row) :
  constraints users others r = Ok tt <->
  forallb (fun b => b) (not_null r) = true
  /\ forallb SQL.not_false (checks r) = true
  /\ clashes others r = false
  /\ references_user users r = true.
Proof.
  unfold constraints.
  destruct (forallb (fun b => b) (not_null r)),
    (forallb SQL.not_false (checks r)), (clashes others r),
    (references_user users r); simpl; intuition discriminate.
Qed.

Lemma exec_insert_ok_iff (e : entity) (who : session) (s : store) (r : row_of e) :
  exec s (Insert e who r) = Ok (with_rows s e (rows s e ++ [r])%list) <->
  passes insert_check who r = true /\ constraints (tenants s) (rows s e) r = Ok tt.
Proof.
  split.
  - intros H. now apply exec_insert_inv in H as (_ & Hp & Hc).
  - intros (Hp & Hc). simpl. unfold insert. now rewrite Hp, Hc.
Qed.

Lemma exec_insert_is_ok (e : entity) (who : session) (s : store) (r : row_of e) :
  is_ok (exec s (Insert e who r)) = true <->
  exec s (Insert e who r) = Ok (with_rows s e (rows s e ++ [r])%list).
Proof.
  split.
  - destruct (exec s (Insert e who r)) as [s'|err] eqn:E; [|discriminate].
    intros _. now apply exec_insert_inv in E as (-> & _).
  - now intros ->.
Qed.

Lemma existsb_text_In (v : text) (vals : list text) :
  existsb (String.eqb v) vals = true <-> In v vals.
Proof.
  rewrite existsb_exists. split.
  - intros (x & Hin & Heq). apply String.eqb_eq in Heq. now subst.
  - intros Hin. exists v. now rewrite String.eqb_refl.
Qed.

Lemma not_false_in_list (x : option text) (vals : list text) :
  SQL.not_false (SQL.in_list x vals) = true <-> absent_or (fun v => In v vals) x.
Proof.
  destruct x as [v|]; simpl; [|tauto].
  rewrite <- existsb_text_In. destruct (existsb (String.eqb v) vals); simpl; intuition.
Qed.

Lemma not_false_between (x : option Z) (lo hi : Z) :
  SQL.not_false (SQL.between x lo hi) = true <-> absent_or (fun v => lo <= v <= hi) x.
Proof.
  destruct x as [v|]; simpl; [|tauto].
  destruct (Z.leb_spec lo v), (Z.leb_spec v hi); simpl; split;
    try discriminate; try reflexivity; lia.
Qed.

Lemma wellness_checks_iff (r : WellnessLogs.row) :
  forallb SQL.not_false (checks r) = true <->
  absent_or (fun m => In m ["great"; "good"; "neutral"; "low"; "struggling"])
            (WellnessLogs.mood r)
  /\ absent_or (fun v => 1 <= v <= 10) (WellnessLogs.energy_level r)
  /\ absent_or (fun v => 1 <= v <= 10) (WellnessLogs.stress_level r).
Proof.
  simpl checks. unfold forallb. rewrite !andb_true_iff.
  unfold WellnessLogs.mood_check, WellnessLogs.energy_level_check,
    WellnessLogs.stress_level_check.
  rewrite not_false_in_list, !not_false_between. tauto.
Qed.

Lemma interview_checks_iff (r : InterviewSessions.row) :
  forallb SQL.not_false (checks r) = true <->
  absent_or (fun v => In v ["behavioral"; "technical"; "hr"; "case"])
            (InterviewSessions.interview_type r).
Proof.
  simpl checks. unfold forallb. rewrite andb_true_iff.
  unfold InterviewSessions.interview_type_check. rewrite not_false_in_list. tauto.
Qed.

(** ** Range and enumeration checks on wellness logs (C6) *)

Lemma exec_keep_err (s : store) (st : statement) (err : sqlstate) :
  exec s st = Err err -> exec_keep s st = s.
Proof. unfold exec_keep. now intros ->. Qed.

(** C6.  A wellness log whose [energy_level] or [stress_level] is present
    and outside 1..10, or whose [mood] is present and not one of great, good,
    neutral, low, struggling, violates a [CHECK] constraint whatever the
    table holds; the [INSERT] fails (with [check_violation] for every session
    whose insert policy the row passes) and the store stays as it was. *)
Theorem wellness_log_out_of_range_rejected (s : store) (who : session)
  (r : WellnessLogs.row)
  (Hbad : present_and (fun v => v < 1 \/ 10 < v) (WellnessLogs.energy_level r)
          \/ present_and (fun v => v < 1 \/ 10 < v) (WellnessLogs.stress_level r)
          \/ present_and (fun m => ~ In m ["great"; "good"; "neutral"; "low"; "struggling"])
                         (WellnessLogs.mood r)) :
  (forall users others, constraints users others r = Err check_violation)
  /\ (exists err, exec s (Insert WellnessLog who r) = Err err
                  /\ (passes insert_check who r = true -> err = check_violation))
  /\ exec_keep s (Insert WellnessLog who r) = s.
Proof.
  assert (Hchk : forallb SQL.not_false (checks r) = false).
  { apply not_true_is_false. rewrite wellness_checks_iff. intros (Hm & He & Hs).
    destruct Hbad as [H | [H | H]].
    - destruct (WellnessLogs.energy_level r); simpl in *; [lia | exact H].
    - destruct (WellnessLogs.stress_level r); simpl in *; [lia | exact H].
    - destruct (WellnessLogs.mood r); simpl in *; [now apply H | exact H]. }
  assert (Hcon : forall users others, constraints users others r = Err check_violation).
  { intros users others. unfold constraints. now rewrite Hchk. }
  assert (Hex : exists err, exec s (Insert WellnessLog who r) = Err err
                  /\ (passes insert_check who r = true -> err = check_violation)).
  { simpl exec. unfold insert.
    destruct (passes insert_check who r); simpl.
    - rewrite Hcon. simpl. eauto.
    - exists insufficient_privilege. split; [reflexivity | discriminate]. }
  split; [exact Hcon | split; [exact Hex|]].
  destruct Hex as (err & Herr & _). now apply exec_keep_err with err.
Qed.

Lemma wellness_log_out_of_range_rejected_witness :
  present_and (fun v => v < 1 \/ 10 < v)
    (WellnessLogs.energy_level
       (Sample.wellness_log 7%N (Some 1%N) (Some "good") (Some 11) (Some 3)))
  /\ exec Sample.signed_up
       (Insert WellnessLog (authenticated 1%N)
          (Sample.wellness_log 7%N (Some 1%N) (Some "good") (Some 11) (Some 3)))
     = Err check_violation
  /\ exec_keep Sample.signed_up
       (Insert WellnessLog (authenticated 1%N)
          (Sample.wellness_log 7%N (Some 1%N) (Some "good") (Some 11) (Some 3)))
     = Sample.signed_up.
Proof.
  assert (H : present_and (fun v => v < 1 \/ 10 < v)
                (WellnessLogs.energy_level
                   (Sample.wellness_log 7%N (Some 1%N) (Some "good") (Some 11) (Some 3)))).
  { simpl. lia. }
  split; [exact H|].
  split; [reflexivity|].
  exact (proj2 (proj2 (wellness_log_out_of_range_rejected Sample.signed_up
                         (authenticated 1%N) _ (or_introl H)))).
Defined.

(** ** Absent values satisfy the checks (C10) *)

(** C10.  Take a wellness log [w] and an interview session [i] that pass the
    insert policy of the session, whose keys are free and whose owner is a
    tenant.  The insert of [w] is accepted exactly when each of [mood],
    [energy_level] and [stress_level] is absent or within its set or range,
    and the insert of [i] exactly when [interview_type] is absent or one of
    the four kinds: an absent value is never rejected. *)
Theorem absent_values_accepted (s : store) (who : session)
  (w : WellnessLogs.row) (i : InterviewSessions.row)
  (Hw_policy : passes insert_check who w = true)
  (Hw_key : clashes (wellness_logs s) w = false)
  (Hw_owner : references_user (tenants s) w = true)
  (Hi_policy : passes insert_check who i = true)
  (Hi_key : clashes (interview_sessions s) i = false)
  (Hi_owner : references_user (tenants s) i = true) :
  (exec s (Insert WellnessLog who w)
     = Ok (with_rows s WellnessLog (wellness_logs s ++ [w])%list)
   <-> absent_or (fun m => In m ["great"; "good"; "neutral"; "low"; "struggling"])
                 (WellnessLogs.mood w)
       /\ absent_or (fun v => 1 <= v <= 10) (WellnessLogs.energy_level w)
       /\ absent_or (fun v => 1 <= v <= 10) (WellnessLogs.stress_level w))
  /\ (exec s (Insert InterviewSession who i)
        = Ok (with_rows s InterviewSession (interview_sessions s ++ [i])%list)
      <-> absent_or (fun v => In v ["behavioral"; "technical"; "hr"; "case"])
                    (InterviewSessions.interview_type i)).
Proof.
  split.
  - rewrite (exec_insert_ok_iff WellnessLog), constraints_ok_iff, wellness_checks_iff.
    simpl rows. intuition.
  - rewrite (exec_insert_ok_iff InterviewSession), constraints_ok_iff, interview_checks_iff.
    simpl rows. intuition.
Qed.

Lemma absent_values_accepted_witness :
  exec Sample.signed_up
    (Insert WellnessLog (authenticated 1%N)
       (Sample.wellness_log 7%N (Some 1%N) None None None))
  = Ok (with_rows Sample.signed_up WellnessLog
          [Sample.wellness_log 7%N (Some 1%N) None None None])
  /\ exec Sample.signed_up
       (Insert InterviewSession (authenticated 1%N) (Sample.interview 8%N (Some 1%N) None))
     = Ok (with_rows Sample.signed_up InterviewSession
             [Sample.interview 8%N (Some 1%N) None]).
Proof.
  pose proof (absent_values_accepted Sample.signed_up (authenticated 1%N)
                (Sample.wellness_log 7%N (Some 1%N) None None None)
                (Sample.interview 8%N (Some 1%N) None)
                eq_refl eq_refl eq_refl eq_refl eq_refl eq_refl) as [Hw Hi].
  split.
  - apply Hw. simpl. tauto.
  - apply Hi. simpl. tauto.
Defined.

(** ** Writes are scoped to the calling tenant (C8) *)

Section WriteIsolation.

Context {row : Type} {T : Table row}.
Hypothesis HP : owner_policies T.
Variables T1 T2 : uuid.
Hypothesis Hdistinct : T1 <> T2.

Lemma not_owned_by_other (r : row) :
  user_id r = Some T1 -> SQL.is_true (SQL.eq N.eqb (user_id r) (Some T2)) = false.
Proof.
  intros Hr. apply not_true_is_false. rewrite is_true_eq_some. congruence.
Qed.

Lemma targeted_owner (target : uuid) (r : row) :
  targeted (authenticated T1) target r = true -> user_id r = Some T1.
Proof.
  unfold targeted. rewrite !andb_true_iff. intros [[_ Hsel] _].
  now apply (passes_select HP).
Qed.

Lemma update_keeps_others (users : list uuid) (tbl tbl' : list row) (target : uuid)
  (set : row -> row) :
  update (authenticated T1) users tbl target set = Ok tbl' ->
  owned_by T2 tbl' = owned_by T2 tbl.
Proof.
  unfold update.
  destruct (filter (targeted (authenticated T1) target) tbl) as [|r rest];
    [now intros [= <-]|].
  destruct (passes update_using (authenticated T1) (set r)) eqn:Hnew; simpl;
    [|discriminate].
  apply (passes_update HP) in Hnew.
  destruct (constraints users _ (set r)) as [[]|err]; simpl; [|discriminate].
  intros [= <-]. unfold owned_by.
  induction tbl as [|o tbl IH]; simpl; [reflexivity|].
  destruct (targeted (authenticated T1) target o) eqn:Ho.
  - apply targeted_owner in Ho.
    now rewrite (not_owned_by_other _ Hnew), (not_owned_by_other _ Ho).
  - now rewrite IH.
Qed.

Lemma delete_keeps_others (tbl : list row) (cond : row -> bool) :
  owned_by T2 (delete (authenticated T1) tbl cond) = owned_by T2 tbl.
Proof.
  unfold delete, owned_by.
  induction tbl as [|o tbl IH]; simpl; [reflexivity|].
  destruct (passes select_using (authenticated T1) o) eqn:Hsel; simpl.
  - apply (passes_select HP) in Hsel.
    destruct (passes delete_using (authenticated T1) o && cond o); simpl;
      rewrite (not_owned_by_other _ Hsel); exact IH.
  - now rewrite IH.
Qed.

Lemma insert_keeps_others (users : list uuid) (tbl tbl' : list row) (r : row) :
  insert (authenticated T1) users tbl r = Ok tbl' ->
  owned_by T2 tbl' = owned_by T2 tbl.
Proof.
  intros H. apply insert_ok_inv in H as (-> & Hp & _).
  apply (passes_insert HP) in Hp.
  rewrite owned_by_app, (owned_by_other T2 T1 r Hp Hdistinct). apply app_nil_r.
Qed.

Lemma insert_for_other_refused (users : list uuid) (tbl : list row) (r : row) :
  user_id r = Some T2 -> insert (authenticated T1) users tbl r = Err insufficient_privilege.
Proof.
  intros Hr. unfold insert.
  destruct (passes insert_check (authenticated T1) r) eqn:Hp; [|reflexivity].
  apply (passes_insert HP) in Hp. congruence.
Qed.

End WriteIsolation.

Lemma table_statement_frame (s : store) (e e' : entity) (t : list (row_of e))
  (u : uuid) :
  owned_by u t = owned_by u (rows s e) ->
  owned_by u (rows (with_rows s e t) e') = owned_by u (rows s e').
Proof.
  intros H. same_table e e'.
  - now rewrite rows_with_rows_same.
  - now rewrite rows_with_rows_other.
Qed.

(** The claim as worded, that an insert is accepted if and only if the
    owner column is the calling tenant, fails: a tenant's own wellness log
    with [energy_level = 11] is refused. *)
Lemma owner_alone_does_not_accept :
  ~ (forall (e : entity) (s : store) (t : uuid) (r : row_of e),
       is_ok (exec s (Insert e (authenticated t) r)) = true <-> user_id r = Some t).
Proof.
  intros H.
  destruct (H WellnessLog Sample.signed_up 1%N
              (Sample.wellness_log 7%N (Some 1%N) (Some "good") (Some 11) (Some 3)))
    as [_ Himp].
  discriminate (Himp eq_refl).
Qed.

(** C8, amended.  For distinct tenants [T1] and [T2] and each of the six
    tables: the insert policy passes a row for [T1] exactly when its owner
    column is [T1]; an insert issued as [T1] of a row owned by [T2] is
    refused; an insert issued as [T1] is accepted exactly when the owner
    column is [T1] and the table's constraints hold for the row; and no
    statement issued as [T1] (insert, update or delete, on any table)
    changes the rows owned by [T2] in any table. *)
Theorem write_isolation (e : entity) (s : store) (T1 T2 : uuid)
  (Hdistinct : T1 <> T2) :
  (forall r : row_of e,
     passes insert_check (authenticated T1) r = true <-> user_id r = Some T1)
  /\ (forall r : row_of e,
        user_id r = Some T2 ->
        exec s (Insert e (authenticated T1) r) = Err insufficient_privilege)
  /\ (forall r : row_of e,
        is_ok (exec s (Insert e (authenticated T1) r)) = true
        <-> user_id r = Some T1 /\ constraints (tenants s) (rows s e) r = Ok tt)
  /\ (forall (st : statement) (s' : store),
        issued_by (authenticated T1) st -> exec s st = Ok s' ->
        forall e', owned_by T2 (rows s' e') = owned_by T2 (rows s e')).
Proof.
  pose proof (entity_owner_policies e) as HP.
  split; [|split; [|split]].
  - intros r. apply (passes_insert HP).
  - intros r Hr. simpl.
    now rewrite (insert_for_other_refused HP T1 T2 Hdistinct _ _ r Hr).
  - intros r. rewrite exec_insert_is_ok, exec_insert_ok_iff.
    now rewrite (passes_insert HP).
  - intros st s' Hby Hexec e'.
    destruct st as [d new | uid | e0 who r | e0 who target set | e0 who cond];
      simpl in Hby; try contradiction; subst who; simpl in Hexec.
    + destruct (insert _ _ _ r) as [t|err] eqn:E; simpl in Hexec; [|discriminate].
      injection Hexec as <-. apply table_statement_frame.
      exact (insert_keeps_others (entity_owner_policies e0) T1 T2 Hdistinct _ _ _ r E).
    + destruct (update _ _ _ target set) as [t|err] eqn:E; simpl in Hexec; [|discriminate].
      injection Hexec as <-. apply table_statement_frame.
      exact (update_keeps_others (entity_owner_policies e0) T1 T2 Hdistinct _ _ _ _ _ E).
    + injection Hexec as <-. apply table_statement_frame.
      exact (delete_keeps_others (entity_owner_policies e0) T1 T2 Hdistinct _ cond).
Qed.

Lemma write_isolation_witness :
  1%N <> 2%N
  /\ exec Sample.signed_up
       (Insert Application (authenticated 1%N)
          (Sample.application 9%N (Some 2%N) (Some "applied")))
     = Err insufficient_privilege.
Proof.
  assert (H : 1%N <> 2%N) by discriminate.
  split; [exact H|].
  exact (proj1 (proj2 (write_isolation Application Sample.signed_up 1%N 2%N H))
           (Sample.application 9%N (Some 2%N) (Some "applied")) eq_refl).
Defined.

Lemma read_isolation_witness :
  1%N <> 2%N
  /\ select (authenticated 2%N)
       (rows (with_rows Sample.signed_up Application
                [Sample.application 9%N (Some 1%N) (Some "applied")]) Application)
       (fun _ => true)
     = [].
Proof.
  assert (H : 1%N <> 2%N) by discriminate.
  split; [exact H|].
  exact (proj2 (proj2 (read_isolation Application 1%N 2%N (authenticated 1%N)
                         Sample.signed_up _
                         (Sample.application 9%N (Some 1%N) (Some "applied"))
                         (fun _ => true) H eq_refl eq_refl))
           Application (fun _ => true)).
Defined.

(** ** Integrity is preserved by every statement *)

Lemma FOP_snoc {A : Type} (R : A -> A -> Prop) (l : list A) (x : A) :
  ForallOrdPairs R l -> Forall (fun a => R a x) l -> ForallOrdPairs R (l ++ [x]).
Proof.
  induction 1 as [|a l Ha Hl IH]; simpl; intros Hx.
  - constructor; constructor.
  - inversion Hx as [|? ? Hax Hlx]; subst. constructor.
    + apply Forall_app. split; [exact Ha | now constructor].
    + now apply IH.
Qed.

Lemma FOP_filter {A : Type} (R : A -> A -> Prop) (p : A -> bool) (l : list A) :
  ForallOrdPairs R l -> ForallOrdPairs R (filter p l).
Proof.
  induction 1 as [|a l Ha Hl IH]; simpl; [constructor|].
  destruct (p a); [|exact IH]. constructor; [|exact IH].
  rewrite Forall_forall in *. intros b Hb. apply filter_In in Hb as [Hb _]. auto.
Qed.

Lemma references_user_iff {row : Type} {T : Table row} (users : list uuid) (r : row) :
  references_user users r = true <-> forall u, user_id r = Some u -> In u users.
Proof.
  unfold references_user. destruct (user_id r) as [v|].
  - rewrite existsb_exists. split.
    + intros (x & Hin & Heq) u [= <-]. apply N.eqb_eq in Heq. now subst.
    + intros H. exists v. split; [now apply H | apply N.eqb_refl].
  - split; [discriminate | reflexivity].
Qed.

Section IntegrityLemmas.

Context {row : Type} {T : Table row}.
Hypothesis HP : owner_policies T.

Lemma clash_sym (a b : row) : clash a b = clash b a.
Proof. unfold clash. now rewrite N.eqb_sym, (op_clash_sym _ HP). Qed.

Lemma clashes_false_iff (others : list row) (r : row) :
  clashes others r = false <-> Forall (fun o => clash o r = false) others.
Proof.
  unfold clashes. change (fun o => N.eqb (pkey o) (pkey r) || unique_clash o r)
    with (fun o => clash o r).
  induction others as [|o others IH]; simpl.
  - split; [constructor | reflexivity].
  - rewrite orb_false_iff, IH. split.
    + intros [Ho Hrest]. now constructor.
    + intros H. inversion H; subst. auto.
Qed.

Lemma row_ok_users (users users' : list uuid) (r : row) :
  (forall u, user_id r = Some u -> In u users -> In u users') ->
  row_ok users r -> row_ok users' r.
Proof.
  intros Hsub (Hn & Hc & Hfk). repeat split; trivial.
  rewrite references_user_iff in *. auto.
Qed.

Lemma constraints_row_ok (users : list uuid) (others : list row) (r : row) :
  constraints users others r = Ok tt ->
  row_ok users r /\ Forall (fun o => clash o r = false) others.
Proof.
  rewrite constraints_ok_iff, clashes_false_iff. unfold row_ok. tauto.
Qed.

Lemma insert_table_ok (who : session) (users : list uuid) (tbl tbl' : list row) (r : row) :
  insert who users tbl r = Ok tbl' -> table_ok users tbl -> table_ok users tbl'.
Proof.
  intros H [Hrows Hpairs]. apply insert_ok_inv in H as (-> & _ & Hc).
  apply constraints_row_ok in Hc as [Hr Hfree]. split.
  - apply Forall_app. split; [exact Hrows | now constructor].
  - now apply FOP_snoc.
Qed.

Lemma filter_table_ok (users : list uuid) (p : row -> bool) (tbl : list row) :
  table_ok users tbl -> table_ok users (filter p tbl).
Proof.
  intros [Hrows Hpairs]. split; [|now apply FOP_filter].
  rewrite Forall_forall in *. intros r Hr. apply filter_In in Hr as [Hr _]. auto.
Qed.

Lemma targeted_key (who : session) (target : uuid) (r : row) :
  targeted who target r = true -> pkey r = target.
Proof.
  unfold targeted. rewrite !andb_true_iff. intros [[Hk _] _]. now apply N.eqb_eq.
Qed.

Lemma replace_targeted_pairs (who : session) (target : uuid) (r' : row) (tbl : list row) :
  ForallOrdPairs (fun a b => clash a b = false) tbl ->
  (forall o, In o tbl -> targeted who target o = false -> clash o r' = false) ->
  ForallOrdPairs (fun a b => clash a b = false)
    (map (fun o => if targeted who target o then r' else o) tbl).
Proof.
  induction 1 as [|a l Ha Hl IH]; simpl; intros Hfree; [constructor|].
  constructor.
  - rewrite Forall_forall in *. intros b' Hb'.
    apply in_map_iff in Hb' as (b & <- & Hb).
    specialize (Ha b Hb).
    destruct (targeted who target a) eqn:Ea, (targeted who target b) eqn:Eb.
    + apply targeted_key in Ea, Eb. unfold clash in Ha.
      rewrite Ea, Eb, N.eqb_refl in Ha. discriminate.
    + rewrite clash_sym. apply Hfree; [now right | exact Eb].
    + apply Hfree; [now left | exact Ea].
    + exact Ha.
  - apply IH. intros o Ho. apply Hfree. now right.
Qed.

Lemma update_table_ok (who : session) (users : list uuid) (tbl tbl' : list row)
  (target : uuid) (set : row -> row) :
  update who users tbl target set = Ok tbl' -> table_ok users tbl -> table_ok users tbl'.
Proof.
  unfold update. intros H [Hrows Hpairs].
  destruct (filter (targeted who target) tbl) as [|r rest];
    [injection H as <-; now split|].
  destruct (passes update_using who (set r)); simpl in H; [|discriminate].
  destruct (constraints users _ (set r)) as [[]|err] eqn:Hc; simpl in H; [|discriminate].
  injection H as <-. apply constraints_row_ok in Hc as [Hr Hfree]. split.
  - rewrite Forall_forall in *. intros x Hx.
    apply in_map_iff in Hx as (o & <- & Ho).
    destruct (targeted who target o); auto.
  - apply replace_targeted_pairs; [exact Hpairs|].
    intros o Ho Hnot. rewrite Forall_forall in Hfree. apply Hfree.
    apply filter_In. split; [exact Ho | now rewrite Hnot].
Qed.

Lemma table_ok_users (users users' : list uuid) (tbl : list row) :
  (forall u, In u users -> In u users') -> table_ok users tbl -> table_ok users' tbl.
Proof.
  intros Hsub [Hrows Hpairs]. split; [|exact Hpairs].
  rewrite Forall_forall in *. intros r Hr.
  apply row_ok_users with users; auto.
Qed.

Lemma cascade_table_ok (users : list uuid) (uid : uuid) (tbl : list row) :
  table_ok users tbl ->
  table_ok (filter (fun u => negb (N.eqb u uid)) users) (cascade uid tbl).
Proof.
  intros Hok. unfold cascade.
  destruct (filter_table_ok users
              (fun r => negb (SQL.is_true (SQL.eq N.eqb (user_id r) (Some uid)))) tbl Hok)
    as [Hrows Hpairs].
  split; [|exact Hpairs].
  rewrite Forall_forall in *. intros r Hr. specialize (Hrows r Hr).
  apply filter_In in Hr as [_ Hne]. apply row_ok_users with users; [|exact Hrows].
  intros u Hu Hin. apply filter_In. split; [exact Hin|].
  destruct (N.eqb_spec u uid) as [->|]; [|reflexivity].
  apply is_true_eq_some in Hu. now rewrite Hu in Hne.
Qed.

End IntegrityLemmas.

Lemma store_ok_with_rows (s : store) (e : entity) (t : list (row_of e)) :
  store_ok s -> table_ok (tenants s) t -> store_ok (with_rows s e t).
Proof.
  intros [Hnd Htabs] Ht. split; rewrite tenants_with_rows; [exact Hnd|].
  intros e'. same_table e e'.
  - now rewrite rows_with_rows_same.
  - rewrite rows_with_rows_other by assumption. apply Htabs.
Qed.

Lemma tenants_delete_user (s : store) (uid : uuid) :
  tenants (delete_user uid s) = filter (fun u => negb (N.eqb u uid)) (tenants s).
Proof.
  unfold tenants. simpl. induction (auth_users s) as [|u us IH]; simpl; [reflexivity|].
  destruct (N.eqb (AuthUsers.id u) uid); simpl; now rewrite IH.
Qed.

Lemma existsb_uuid_In (u : uuid) (l : list uuid) :
  existsb (N.eqb u) l = true <-> In u l.
Proof.
  rewrite existsb_exists. split.
  - intros (x & Hin & Heq). apply N.eqb_eq in Heq. now subst.
  - intros Hin. exists u. now rewrite N.eqb_refl.
Qed.

Lemma create_user_inv (d : defaults) (new : AuthUsers.row) (s s' : store) :
  create_user d new s = Ok s' ->
  ~ In (AuthUsers.id new) (tenants s)
  /\ handle_new_user d new (with_users s (auth_users s ++ [new])%list) = Ok s'.
Proof.
  unfold create_user.
  destruct (existsb (N.eqb (AuthUsers.id new)) (tenants s)) eqn:E; [discriminate|].
  intros H. split; [|exact H]. rewrite <- existsb_uuid_In, E. discriminate.
Qed.

Lemma tenants_with_users (s : store) (us : list AuthUsers.row) :
  tenants (with_users s us) = map AuthUsers.id us.
Proof. reflexivity. Qed.

Lemma rows_with_users (s : store) (us : list AuthUsers.row) (e : entity) :
  rows (with_users s us) e = rows s e.
Proof. destruct e; reflexivity. Qed.

Lemma store_ok_new_user (s : store) (new : AuthUsers.row) :
  store_ok s -> ~ In (AuthUsers.id new) (tenants s) ->
  store_ok (with_users s (auth_users s ++ [new])%list).
Proof.
  intros [Hnd Htabs] Hfresh. split.
  - rewrite tenants_with_users, map_app. simpl.
    apply NoDup_app; [exact Hnd | repeat constructor; intros [] |].
    intros u Hu [<- | []]. now apply Hfresh.
  - intros e. rewrite rows_with_users, tenants_with_users, map_app.
    apply table_ok_users with (tenants s); [|apply Htabs].
    intros u Hu. apply in_or_app. now left.
Qed.

Lemma exec_store_ok (s s' : store) (st : statement) :
  store_ok s -> exec s st = Ok s' -> store_ok s'.
Proof.
  intros Hok Hexec.
  destruct st as [d new | uid | e who r | e who target set | e who cond];
    cbn [exec] in Hexec.
  - apply create_user_inv in Hexec as [Hfresh Hhook].
    pose proof (store_ok_new_user s new Hok Hfresh) as Hok1.
    unfold handle_new_user in Hhook.
    destruct (insert table_owner _ _ _) as [t|err] eqn:E; cbn [bind] in Hhook;
      [|discriminate].
    injection Hhook as <-.
    apply (store_ok_with_rows (with_users s (auth_users s ++ [new])%list) Profile t Hok1).
    eapply insert_table_ok; [exact E|]. apply (proj2 Hok1 Profile).
  - injection Hexec as <-. destruct Hok as [Hnd Htabs]. split.
    + rewrite tenants_delete_user. now apply NoDup_filter.
    + intros e. rewrite rows_delete_user, tenants_delete_user.
      apply cascade_table_ok, Htabs.
  - destruct (insert who _ _ r) as [t|err] eqn:E; cbn [bind] in Hexec; [|discriminate].
    injection Hexec as <-. apply store_ok_with_rows; [exact Hok|].
    eapply insert_table_ok; [exact E|]. apply (proj2 Hok e).
  - destruct (update who _ _ target set) as [t|err] eqn:E; cbn [bind] in Hexec;
      [|discriminate].
    injection Hexec as <-. apply store_ok_with_rows; [exact Hok|].
    eapply (update_table_ok (entity_owner_policies e)); [exact E|]. apply (proj2 Hok e).
  - injection Hexec as <-. apply store_ok_with_rows; [exact Hok|].
    apply filter_table_ok, (proj2 Hok e).
Qed.

Lemma empty_store_ok : store_ok empty_store.
Proof.
  split; [constructor|]. intros e. destruct e; split; constructor.
Qed.

(** Every reachable store satisfies the declared constraints. *)
Lemma reachable_store_ok (s : store) : reachable s -> store_ok s.
Proof.
  induction 1 as [|s st s' Hs IH Hexec]; [apply empty_store_ok|].
  now apply exec_store_ok with s st.
Qed.

Lemma exec_keep_reachable (s : store) (st : statement) :
  reachable s -> reachable (exec_keep s st).
Proof.
  intros Hs. unfold exec_keep. destruct (exec s st) as [s'|err] eqn:E; [|exact Hs].
  now apply reachable_step with s st.
Qed.

Lemma run_reachable (script : list statement) : reachable (run script).
Proof.
  unfold run. generalize empty_store reachable_empty.
  induction script as [|st script IH]; simpl; intros s Hs; [exact Hs|].
  apply IH. now apply exec_keep_reachable.
Qed.

(** ** Uniqueness *)

Lemma filter_none {A : Type} (p : A -> bool) (l : list A) :
  (forall x, In x l -> p x = false) -> filter p l = [].
Proof.
  induction l as [|a l IH]; simpl; intros H; [reflexivity|].
  rewrite (H a) by now left. apply IH. intros x Hx. apply H. now right.
Qed.

(** Among rows that pairwise do not clash, at most one satisfies a
    condition that makes any two rows clash. *)
Lemma at_most_one {row : Type} {T : Table row} (p : row -> bool) (tbl : list row) :
  (forall a b, p a = true -> p b = true -> clash a b = true) ->
  ForallOrdPairs (fun a b => clash a b = false) tbl ->
  (List.length (filter p tbl) <= 1)%nat.
Proof.
  intros Hp. induction 1 as [|a l Ha Hl IH]; simpl; [lia|].
  destruct (p a) eqn:Epa; [|exact IH].
  rewrite filter_none; [simpl; lia|].
  intros b Hb. rewrite Forall_forall in Ha. specialize (Ha b Hb).
  destruct (p b) eqn:Epb; [|reflexivity].
  rewrite (Hp a b Epa Epb) in Ha. discriminate.
Qed.

Lemma same_owner_clash (t : uuid) (a b : Profiles.row) :
  Profiles.user_id a = Some t -> Profiles.user_id b = Some t -> clash a b = true.
Proof.
  intros Ha Hb. unfold clash. simpl. unfold Profiles.unique_user_id.
  rewrite Ha, Hb. simpl. rewrite N.eqb_refl. apply orb_true_r.
Qed.

Lemma has_milestone_iff (t : uuid) (m : text) (r : LearningProgress.row) :
  has_milestone t m r = true <->
  LearningProgress.user_id r = Some t /\ LearningProgress.milestone_id r = Some m.
Proof.
  unfold has_milestone. rewrite andb_true_iff, is_true_eq_some.
  destruct (LearningProgress.milestone_id r) as [v|]; simpl.
  - destruct (String.eqb_spec v m) as [->|Hne]; intuition congruence.
  - intuition discriminate.
Qed.

Lemma same_milestone_clash (t : uuid) (m : text) (a b : LearningProgress.row) :
  has_milestone t m a = true -> has_milestone t m b = true -> clash a b = true.
Proof.
  rewrite !has_milestone_iff. intros [Ha Ha'] [Hb Hb'].
  unfold clash. simpl. unfold LearningProgress.unique_user_milestone.
  rewrite Ha, Ha', Hb, Hb'. simpl. rewrite N.eqb_refl, String.eqb_refl.
  apply orb_true_r.
Qed.

Lemma profiles_one_per_tenant (s : store) (t : uuid) :
  store_ok s -> (List.length (owned_by t (profiles s)) <= 1)%nat.
Proof.
  intros [_ Htabs]. destruct (Htabs Profile) as [_ Hpairs].
  apply at_most_one; [|exact Hpairs].
  intros a b Ha Hb. apply is_true_eq_some in Ha, Hb. now apply same_owner_clash with t.
Qed.

Lemma milestones_one_per_tenant (s : store) (t : uuid) (m : text) :
  store_ok s -> (List.length (filter (has_milestone t m) (learning_progress s)) <= 1)%nat.
Proof.
  intros [_ Htabs]. destruct (Htabs LearningProgress) as [_ Hpairs].
  apply at_most_one; [|exact Hpairs].
  intros a b. apply same_milestone_clash.
Qed.

(** A tenant that is not in [auth.users] owns no row. *)
Lemma no_rows_without_tenant (s : store) (e : entity) (t : uuid) :
  store_ok s -> ~ In t (tenants s) -> owned_by t (rows s e) = [].
Proof.
  intros [_ Htabs] Hnot. destruct (Htabs e) as [Hrows _].
  apply filter_none. intros r Hr. apply not_true_is_false. intros Hown.
  apply is_true_eq_some in Hown. rewrite Forall_forall in Hrows.
  destruct (Hrows r Hr) as (_ & _ & Hfk).
  rewrite references_user_iff in Hfk. auto.
Qed.

(** ** One profile per tenant (C4) *)

Lemma handle_new_user_inv (d : defaults) (new : AuthUsers.row) (s s' : store) :
  handle_new_user d new s = Ok s' ->
  s' = with_rows s Profile (profiles s ++ [new_profile d new])%list
  /\ clashes (profiles s) (new_profile d new) = false.
Proof.
  unfold handle_new_user.
  destruct (insert table_owner _ _ _) as [t|err] eqn:E; cbn [bind]; [|discriminate].
  intros [= <-]. apply insert_ok_inv in E as (-> & _ & Hc).
  apply constraints_ok_iff in Hc. tauto.
Qed.

Lemma handle_new_user_ok (d : defaults) (new : AuthUsers.row) (s : store) :
  clashes (profiles s) (new_profile d new) = false ->
  In (AuthUsers.id new) (tenants s) ->
  handle_new_user d new s
  = Ok (with_rows s Profile (profiles s ++ [new_profile d new])%list).
Proof.
  intros Hfree Hin. unfold handle_new_user, insert. cbn [passes bypass_rls orb negb].
  assert (Hc : constraints (tenants s) (profiles s) (new_profile d new) = Ok tt).
  { apply constraints_ok_iff. repeat split; trivial.
    apply references_user_iff. now intros u [= <-]. }
  now rewrite Hc.
Qed.

Lemma handle_new_user_again (d : defaults) (new : AuthUsers.row) (s : store) :
  owned_by (AuthUsers.id new) (profiles s) <> [] ->
  handle_new_user d new s = Err unique_violation.
Proof.
  intros Hsome.
  assert (Hclash : clashes (profiles s) (new_profile d new) = true).
  { destruct (owned_by (AuthUsers.id new) (profiles s)) as [|p rest] eqn:E;
      [contradiction|].
    assert (Hp : In p (owned_by (AuthUsers.id new) (profiles s))) by (rewrite E; now left).
    apply owned_by_In in Hp as [Hin Hown].
    unfold clashes. apply existsb_exists. exists p. split; [exact Hin|].
    apply (same_owner_clash (AuthUsers.id new)); [exact Hown | reflexivity]. }
  unfold handle_new_user, insert. cbn [passes bypass_rls orb negb].
  unfold constraints. cbn [not_null checks profiles_table forallb negb].
  now rewrite Hclash.
Qed.

Lemma new_profile_no_clash (d : defaults) (new : AuthUsers.row) (s : store) :
  store_ok s -> ~ In (AuthUsers.id new) (tenants s) ->
  (clashes (profiles s) (new_profile d new) = false
   <-> forall p, In p (profiles s) -> Profiles.id p <> gen_random_uuid d).
Proof.
  intros Hok Hfresh.
  pose proof (no_rows_without_tenant s Profile _ Hok Hfresh) as Hnone.
  unfold clashes. rewrite <- not_true_iff_false, existsb_exists. split.
  - intros Hno p Hp Heq. apply Hno. exists p. split; [exact Hp|].
    apply orb_true_iff. left. apply N.eqb_eq. exact Heq.
  - intros Hkeys (p & Hp & Hc). apply orb_true_iff in Hc as [Hk | Hu].
    + apply N.eqb_eq in Hk. now apply (Hkeys p Hp).
    + assert (Hin : In p (owned_by (AuthUsers.id new) (rows s Profile))).
      { apply owned_by_In. split; [exact Hp|].
        apply is_true_eq_some. exact Hu. }
      rewrite Hnone in Hin. contradiction.
Qed.

(** C4.  In a reachable store: creating a tenant succeeds exactly when its
    id is new to [auth.users] and the generated profile id is free; when it
    succeeds the trigger has appended one profile row, which is then the only
    profile the tenant owns and carries the tenant's id, its email and the
    [name] member of its metadata; no tenant ever owns more than one profile;
    creating an existing tenant again fails with [unique_violation], and so
    does running the hook again for a tenant that has its profile. *)
Theorem tenant_creation_one_profile (d : defaults) (new : AuthUsers.row) (s : store)
  (Hreach : reachable s) :
  (is_ok (create_user d new s) = true
   <-> ~ In (AuthUsers.id new) (tenants s)
       /\ forall p, In p (profiles s) -> Profiles.id p <> gen_random_uuid d)
  /\ (forall s', create_user d new s = Ok s' ->
        exists p, profiles s' = (profiles s ++ [p])%list
                  /\ owned_by (AuthUsers.id new) (profiles s') = [p]
                  /\ Profiles.user_id p = Some (AuthUsers.id new)
                  /\ Profiles.email p = AuthUsers.email new
                  /\ Profiles.name p
                     = json_get_text (AuthUsers.raw_user_meta_data new) "name")
  /\ (forall t, (List.length (owned_by t (profiles s)) <= 1)%nat)
  /\ (In (AuthUsers.id new) (tenants s) -> create_user d new s = Err unique_violation)
  /\ (owned_by (AuthUsers.id new) (profiles s) <> [] ->
      handle_new_user d new s = Err unique_violation).
Proof.
  pose proof (reachable_store_ok s Hreach) as Hok.
  assert (Hshape : forall s', create_user d new s = Ok s' ->
            ~ In (AuthUsers.id new) (tenants s)
            /\ clashes (profiles s) (new_profile d new) = false
            /\ profiles s' = (profiles s ++ [new_profile d new])%list).
  { intros s' H. apply create_user_inv in H as [Hfresh Hhook].
    apply handle_new_user_inv in Hhook as [-> Hfree]. auto. }
  split; [|split; [|split; [|split]]].
  - split.
    + destruct (create_user d new s) as [s'|err] eqn:E; [|discriminate].
      intros _. destruct (Hshape s' eq_refl) as (Hfresh & Hfree & _).
      split; [exact Hfresh|]. now apply (new_profile_no_clash d new s Hok Hfresh).
    + intros [Hfresh Hkeys]. unfold create_user.
      destruct (existsb (N.eqb (AuthUsers.id new)) (tenants s)) eqn:E.
      * apply existsb_uuid_In in E. contradiction.
      * rewrite handle_new_user_ok; [reflexivity | |].
        -- now apply (new_profile_no_clash d new s Hok Hfresh).
        -- rewrite tenants_with_users, map_app. apply in_or_app. right. now left.
  - intros s' H. destruct (Hshape s' H) as (Hfresh & _ & Hprof).
    exists (new_profile d new). rewrite Hprof. repeat split.
    rewrite owned_by_app.
    pose proof (no_rows_without_tenant s Profile _ Hok Hfresh) as Hnone.
    change (owned_by (AuthUsers.id new) (profiles s) = []) in Hnone.
    rewrite Hnone. unfold owned_by. simpl. now rewrite N.eqb_refl.
  - intros t. now apply profiles_one_per_tenant.
  - intros Hin. unfold create_user.
    apply existsb_uuid_In in Hin. now rewrite Hin.
  - apply handle_new_user_again.
Qed.

Lemma tenant_creation_one_profile_witness :
  reachable Sample.signed_up
  /\ create_user (Sample.at_signup 103%N) Sample.alice Sample.signed_up
     = Err unique_violation
  /\ handle_new_user (Sample.at_signup 103%N) Sample.alice Sample.signed_up
     = Err unique_violation.
Proof.
  assert (H : reachable Sample.signed_up) by apply run_reachable.
  split; [exact H|].
  destruct (tenant_creation_one_profile (Sample.at_signup 103%N) Sample.alice
              Sample.signed_up H) as (_ & _ & _ & Hagain & Hhook).
  split.
  - apply Hagain. simpl. auto.
  - apply Hhook. discriminate.
Defined.

(** ** One progress row per tenant and milestone (C5) *)

Lemma second_milestone_insert_rejected (s : store) (t : uuid) (m : text)
  (who : session) (r r0 : LearningProgress.row) :
  In r0 (learning_progress s) -> has_milestone t m r0 = true ->
  has_milestone t m r = true ->
  exists err, exec s (Insert LearningProgress who r) = Err err
              /\ (passes insert_check who r = true -> err = unique_violation).
Proof.
  intros Hin H0 Hr.
  assert (Hclash : clashes (learning_progress s) r = true).
  { unfold clashes. apply existsb_exists. exists r0. split; [exact Hin|].
    now apply (same_milestone_clash t m). }
  apply has_milestone_iff in Hr as [_ Hm].
  assert (Hc : constraints (tenants s) (learning_progress s) r = Err unique_violation).
  { unfold constraints. rewrite Hclash.
    cbn [not_null checks learning_progress_table]. rewrite Hm. reflexivity. }
  change (exec s (Insert LearningProgress who r))
    with (t' <- insert who (tenants s) (learning_progress s) r ;;
          Ok (with_rows s LearningProgress t')).
  unfold insert. destruct (passes insert_check who r); cbn [negb].
  - rewrite Hc. cbn [bind]. exists unique_violation. auto.
  - exists insufficient_privilege. split; [reflexivity | discriminate].
Qed.

(** C5.  In a reachable store, for every tenant [t] and milestone [m]:
    [learning_progress] holds at most one row with that pair; if an insert of
    such a row is accepted, any further insert of a row with the same pair
    fails (with [unique_violation] when the row passes the session's insert
    policy) and leaves the store as it is; and after any accepted statement
    the table still holds at most one row with the pair. *)
Theorem milestone_unique_per_tenant (s : store) (t : uuid) (m : text)
  (Hreach : reachable s) :
  (List.length (filter (has_milestone t m) (learning_progress s)) <= 1)%nat
  /\ (forall (who1 who2 : session) (r1 r2 : LearningProgress.row) (s1 : store),
        has_milestone t m r1 = true -> has_milestone t m r2 = true ->
        exec s (Insert LearningProgress who1 r1) = Ok s1 ->
        (exists err, exec s1 (Insert LearningProgress who2 r2) = Err err
                     /\ (passes insert_check who2 r2 = true -> err = unique_violation))
        /\ exec_keep s1 (Insert LearningProgress who2 r2) = s1)
  /\ (forall (st : statement) (s' : store),
        exec s st = Ok s' ->
        (List.length (filter (has_milestone t m) (learning_progress s')) <= 1)%nat).
Proof.
  pose proof (reachable_store_ok s Hreach) as Hok.
  split; [|split].
  - now apply milestones_one_per_tenant.
  - intros who1 who2 r1 r2 s1 H1 H2 Hins.
    apply exec_insert_inv in Hins as (-> & _ & _).
    assert (Hex : exists err,
              exec (with_rows s LearningProgress (rows s LearningProgress ++ [r1])%list)
                   (Insert LearningProgress who2 r2) = Err err
              /\ (passes insert_check who2 r2 = true -> err = unique_violation)).
    { apply (second_milestone_insert_rejected _ t m who2 r2 r1); trivial.
      cbn [with_rows learning_progress]. apply in_or_app. right. now left. }
    split; [exact Hex|]. destruct Hex as (err & Herr & _).
    now apply exec_keep_err with err.
  - intros st s' Hexec. apply milestones_one_per_tenant.
    now apply exec_store_ok with s st.
Qed.

Lemma milestone_unique_per_tenant_witness :
  reachable Sample.signed_up
  /\ exec (with_rows Sample.signed_up LearningProgress
             [Sample.progress 11%N (Some 1%N) "m1" (Some false) (Some 0)])
          (Insert LearningProgress (authenticated 1%N)
             (Sample.progress 12%N (Some 1%N) "m1" (Some true) (Some 5)))
     = Err unique_violation.
Proof.
  assert (H : reachable Sample.signed_up) by apply run_reachable.
  split; [exact H|].
  destruct (proj1 (proj2 (milestone_unique_per_tenant Sample.signed_up 1%N "m1" H))
              (authenticated 1%N) (authenticated 1%N)
              (Sample.progress 11%N (Some 1%N) "m1" (Some false) (Some 0))
              (Sample.progress 12%N (Some 1%N) "m1" (Some true) (Some 5))
              _ eq_refl eq_refl eq_refl) as [(err & Herr & Hkind) _].
  exact (eq_trans Herr (f_equal Err (Hkind eq_refl))).
Defined.

(** ** Application funnel counts (C2) *)

Lemma count_cons {A : Type} (p : A -> bool) (a : A) (l : list A) :
  count p (a :: l) = (if p a then 1 else 0) + count p l.
Proof.
  unfold count. simpl. destruct (p a); simpl List.length; lia.
Qed.

Lemma count_nonneg {A : Type} (p : A -> bool) (l : list A) : 0 <= count p l.
Proof. unfold count. lia. Qed.

Lemma count_le_all {A : Type} (p : A -> bool) (l : list A) :
  count p l <= count (fun _ => true) l.
Proof.
  induction l as [|a l IH]; [unfold count; simpl; lia|].
  rewrite !count_cons. destruct (p a); lia.
Qed.

Lemma int4_in_range (z : Z) : 0 <= z <= int4_max -> int4 z = Ok z.
Proof.
  intros [Hlo Hhi]. unfold int4, int4_min.
  destruct (Z.leb_spec (-2147483648) z); [|lia].
  destruct (Z.leb_spec z int4_max); [reflexivity | lia].
Qed.

Lemma int4_above_range (z : Z) : int4_max < z -> int4 z = Err numeric_value_out_of_range.
Proof.
  intros H. unfold int4. destruct (Z.leb_spec z int4_max); [lia|].
  now rewrite andb_false_r.
Qed.

Lemma owned_by_idem {row : Type} {T : Table row} (t : uuid) (tbl : list row) :
  owned_by t (owned_by t tbl) = owned_by t tbl.
Proof.
  unfold owned_by. induction tbl as [|r tbl IH]; simpl; [reflexivity|].
  destruct (SQL.is_true (SQL.eq N.eqb (user_id r) (Some t))) eqn:E; simpl;
    [rewrite E|]; now rewrite IH.
Qed.

(** What the function reads when the tenant itself or the owner role calls
    it: the tenant's rows. *)
Lemma stats_from (s : store) (t : uuid) (who : session) :
  who = authenticated t \/ who = table_owner ->
  filter (fun r => SQL.is_true (SQL.eq N.eqb (Applications.user_id r) (Some t)))
         (visible who (applications s))
  = owned_by t (applications s).
Proof.
  intros [-> | ->].
  - rewrite (visible_authenticated (entity_owner_policies Application)).
    apply (owned_by_idem (T := applications_table)).
  - now rewrite (visible_owner_role (T := applications_table)).
Qed.

Lemma status_cases (r : Applications.row) :
  forallb SQL.not_false (checks r) = true ->
  (if status_is "applied" r then 1 else 0) + (if status_is "interview" r then 1 else 0)
  + (if status_is "offer" r then 1 else 0) + (if status_is "rejected" r then 1 else 0)
  + (if status_is "viewed" r then 1 else 0) + (if status_absent r then 1 else 0) = 1.
Proof.
  cbn [checks applications_table forallb]. rewrite andb_true_r.
  unfold Applications.status_check. rewrite not_false_in_list.
  unfold status_is, status_absent.
  destruct (Applications.status r) as [v|]; cbn [absent_or]; [|reflexivity].
  intros [<- | [<- | [<- | [<- | [<- | []]]]]]; reflexivity.
Qed.

Lemma count_by_status (l : list Applications.row) :
  Forall (fun r => forallb SQL.not_false (checks r) = true) l ->
  count (fun _ => true) l
  = count (status_is "applied") l + count (status_is "interview") l
    + count (status_is "offer") l + count (status_is "rejected") l
    + count (status_is "viewed") l + count status_absent l.
Proof.
  induction 1 as [|r l Hr Hl IH]; [reflexivity|].
  rewrite !count_cons, IH. pose proof (status_cases r Hr). lia.
Qed.

Lemma owned_applications_checked (s : store) (t : uuid) :
  store_ok s ->
  Forall (fun r => forallb SQL.not_false (checks r) = true) (owned_by t (applications s)).
Proof.
  intros [_ Htabs]. destruct (Htabs Application) as [Hrows _].
  rewrite Forall_forall in *. intros r Hr.
  apply (owned_by_In (T := applications_table)) in Hr as [Hr _].
  now destruct (Hrows r Hr) as (_ & Hc & _).
Qed.

(** The reconciliation the claim words, total = applied + interview + offer
    + rejected + viewed, fails in a reachable store: the [CHECK] on [status]
    lets a [NULL] through and the row counts in [total] only. *)
Lemma stats_total_exceeds_statuses :
  reachable Sample.with_unset_status
  /\ exists st,
       get_application_stats (authenticated 1%N) Sample.with_unset_status (Some 1%N) = Ok st
       /\ total st <> applied st + interviews st + offers st + rejected st
                      + count (status_is "viewed")
                          (owned_by 1%N (applications Sample.with_unset_status)).
Proof.
  split; [apply run_reachable|].
  eexists. split; [reflexivity|]. vm_compute. discriminate.
Qed.

(** C2, amended.  In a reachable store where tenant [t] has at most
    2147483647 applications, [get_application_stats(t)], called by [t] itself
    or by the owner role, returns: as [total] the number of [t]'s
    applications; as [applied], [interviews], [offers], [rejected] the number
    of those whose status is applied, interview, offer, rejected; and [total]
    is the sum of these four, of the rows with status viewed and of the rows
    whose status is [NULL]. *)
Theorem application_stats_counts (s : store) (t : uuid) (who : session)
  (Hreach : reachable s)
  (Hwho : who = authenticated t \/ who = table_owner)
  (Hrange : count (fun _ => true) (owned_by t (applications s)) <= int4_max) :
  exists st,
    get_application_stats who s (Some t) = Ok st
    /\ total st = count (fun _ => true) (owned_by t (applications s))
    /\ applied st = count (status_is "applied") (owned_by t (applications s))
    /\ interviews st = count (status_is "interview") (owned_by t (applications s))
    /\ offers st = count (status_is "offer") (owned_by t (applications s))
    /\ rejected st = count (status_is "rejected") (owned_by t (applications s))
    /\ total st = applied st + interviews st + offers st + rejected st
                  + count (status_is "viewed") (owned_by t (applications s))
                  + count status_absent (owned_by t (applications s)).
Proof.
  unfold get_application_stats. rewrite (stats_from s t who Hwho).
  set (mine := owned_by t (applications s)) in *.
  assert (Hfit : forall p, int4 (count p mine) = Ok (count p mine)).
  { intros p. apply int4_in_range.
    pose proof (count_nonneg p mine). pose proof (count_le_all p mine). lia. }
  rewrite !Hfit. cbn [bind]. eexists. split; [reflexivity|].
  cbn [total applied interviews offers rejected]. repeat split.
  apply count_by_status. apply owned_applications_checked.
  now apply reachable_store_ok.
Qed.

Lemma application_stats_counts_witness :
  reachable Sample.with_unset_status
  /\ exists st,
       get_application_stats (authenticated 1%N) Sample.with_unset_status (Some 1%N) = Ok st
       /\ total st = 1 /\ applied st = 0 /\ interviews st = 0 /\ offers st = 0
       /\ rejected st = 0
       /\ total st = applied st + interviews st + offers st + rejected st + 0 + 1.
Proof.
  assert (H : reachable Sample.with_unset_status) by apply run_reachable.
  split; [exact H|].
  exact (application_stats_counts Sample.with_unset_status 1%N (authenticated 1%N) H
           (or_introl eq_refl) ltac:(vm_compute; discriminate)).
Defined.

(** The funnel of a tenant with four applications. *)
Example stats_of_four_applications :
  List.length (owned_by 1%N (profiles Sample.four_applications)) = 1%nat
  /\ get_application_stats (authenticated 1%N) Sample.four_applications (Some 1%N)
     = Ok {| total := 4; applied := 2; interviews := 1; offers := 1; rejected := 0 |}.
Proof. split; reflexivity. Qed.

(** Asked by another tenant, the function sees none of the rows. *)
Lemma stats_of_other_tenant (s : store) (T1 T2 : uuid) :
  T1 <> T2 ->
  get_application_stats (authenticated T2) s (Some T1)
  = Ok {| total := 0; applied := 0; interviews := 0; offers := 0; rejected := 0 |}.
Proof.
  intros Hne. unfold get_application_stats.
  rewrite (visible_authenticated (entity_owner_policies Application)).
  rewrite filter_none; [reflexivity|].
  intros r Hr. apply (owned_by_In (T := applications_table)) in Hr as [_ Hr].
  change (Applications.user_id r = Some T2) in Hr.
  apply not_true_is_false. rewrite is_true_eq_some. congruence.
Qed.

(** Beyond the 32-bit range the cast [::INTEGER] of the total raises. *)
Lemma application_stats_overflow (s : store) (t : uuid) (who : session) :
  who = authenticated t \/ who = table_owner ->
  int4_max < count (fun _ => true) (owned_by t (applications s)) ->
  get_application_stats who s (Some t) = Err numeric_value_out_of_range.
Proof.
  intros Hwho Hbig. unfold get_application_stats. rewrite (stats_from s t who Hwho).
  now rewrite (int4_above_range _ Hbig).
Qed.

(** ** The learning streak (C3, C9) *)

Section StreakProperties.

Variable to_date : timestamptz -> date.

Lemma is_true_on_day (x : option timestamptz) (day : date) :
  SQL.is_true (SQL.eq Z.eqb (option_map to_date x) (Some day)) = true <->
  exists ts, x = Some ts /\ to_date ts = day.
Proof.
  destruct x as [ts|]; simpl.
  - destruct (Z.eqb_spec (to_date ts) day) as [Heq|Hne]; split.
    + eauto.
    + reflexivity.
    + discriminate.
    + intros (ts' & [= <-] & Hd). contradiction.
  - split; [discriminate | intros (ts & H & _); discriminate].
Qed.

Lemma is_true_completed (c : option bool) :
  SQL.is_true (SQL.eq Bool.eqb c (Some true)) = true <-> c = Some true.
Proof. destruct c as [[|]|]; simpl; split; congruence. Qed.

Lemma qualifies_iff (t : uuid) (day : date) (r : LearningProgress.row) :
  qualifies to_date (Some t) day r = true <->
  LearningProgress.user_id r = Some t
  /\ LearningProgress.completed r = Some true
  /\ exists ts, LearningProgress.updated_at r = Some ts /\ to_date ts = day.
Proof.
  unfold qualifies.
  rewrite !is_true_and, !andb_true_iff, is_true_eq_some, is_true_on_day,
    is_true_completed.
  tauto.
Qed.

Lemma qualifies_owner (p_user_id : option uuid) (day : date) (r : LearningProgress.row) :
  qualifies to_date p_user_id day r = true ->
  SQL.is_true (SQL.eq N.eqb (LearningProgress.user_id r) p_user_id) = true.
Proof.
  unfold qualifies. rewrite !is_true_and, !andb_true_iff. tauto.
Qed.

Lemma has_activity_iff (from : list LearningProgress.row) (t : uuid) (day : date) :
  has_activity to_date from (Some t) day = true <->
  exists r ts,
    In r from /\ LearningProgress.user_id r = Some t
    /\ LearningProgress.completed r = Some true
    /\ LearningProgress.updated_at r = Some ts /\ to_date ts = day.
Proof.
  unfold has_activity. rewrite existsb_exists. split.
  - intros (r & Hin & Hq). apply qualifies_iff in Hq as (Hu & Hc & ts & Hts & Hd).
    exists r, ts. auto.
  - intros (r & ts & Hin & Hu & Hc & Hts & Hd). exists r. split; [exact Hin|].
    apply qualifies_iff. eauto.
Qed.

(** Only the rows of the tenant asked about matter. *)
Lemma has_activity_visible_owned (who : session) (tbl : list LearningProgress.row)
  (t : uuid) (day : date) :
  has_activity to_date (visible who tbl) (Some t) day
  = has_activity to_date (visible who (owned_by t tbl)) (Some t) day.
Proof.
  unfold has_activity, visible, owned_by.
  induction tbl as [|r tbl IH]; [reflexivity|]. cbn [filter].
  destruct (SQL.is_true (SQL.eq N.eqb (user_id r) (Some t))) eqn:Eo.
  - cbn [filter]. destruct (passes select_using who r); cbn [existsb]; now rewrite IH.
  - destruct (passes select_using who r); cbn [existsb]; [|exact IH].
    rewrite IH. destruct (qualifies to_date (Some t) day r) eqn:Eq; [|reflexivity].
    apply qualifies_owner in Eq. simpl in Eo. congruence.
Qed.

Lemma streak_loop_ext (from from' : list LearningProgress.row) (p_user_id : option uuid) :
  (forall day, has_activity to_date from p_user_id day
               = has_activity to_date from' p_user_id day) ->
  forall fuel streak day,
    streak_loop to_date fuel from p_user_id streak day
    = streak_loop to_date fuel from' p_user_id streak day.
Proof.
  intros Hsame. induction fuel as [|fuel IH]; intros streak day; [reflexivity|].
  cbn [streak_loop]. rewrite Hsame. now rewrite IH.
Qed.

(** [n] active days ending at [day], then a gap: the loop counts [n]. *)
Lemma streak_loop_run (from : list LearningProgress.row) (p_user_id : option uuid)
  (n : nat) :
  forall (fuel : nat) (streak : Z) (day : date),
    (forall k, (k < n)%nat -> has_activity to_date from p_user_id (day - Z.of_nat k) = true) ->
    has_activity to_date from p_user_id (day - Z.of_nat n) = false ->
    (n < fuel)%nat ->
    streak_loop to_date fuel from p_user_id streak day = Some (streak + Z.of_nat n).
Proof.
  induction n as [|n IH]; intros fuel streak day Hdays Hgap Hfuel;
    (destruct fuel as [|fuel]; [lia|]); cbn [streak_loop].
  - replace (day - Z.of_nat 0) with day in Hgap by (simpl; lia).
    rewrite Hgap. cbn [negb]. f_equal. simpl. lia.
  - pose proof (Hdays O ltac:(lia)) as H0.
    replace (day - Z.of_nat 0) with day in H0 by (simpl; lia).
    rewrite H0. cbn [negb]. rewrite IH.
    + f_equal. lia.
    + intros k Hk. replace (day - 1 - Z.of_nat k) with (day - Z.of_nat (S k)) by lia.
      apply Hdays. lia.
    + replace (day - 1 - Z.of_nat n) with (day - Z.of_nat (S n)) by lia. exact Hgap.
    + lia.
Qed.

Lemma filter_length_mono {A : Type} (f g : A -> bool) (l : list A) :
  (forall x, f x = true -> g x = true) ->
  (List.length (filter f l) <= List.length (filter g l))%nat.
Proof.
  intros Hfg. induction l as [|a l IH]; simpl; [lia|].
  destruct (f a) eqn:Ef.
  - rewrite (Hfg a Ef). simpl. lia.
  - destruct (g a); simpl; lia.
Qed.

Lemma filter_length_strict {A : Type} (f g : A -> bool) (l : list A) (x : A) :
  (forall y, f y = true -> g y = true) ->
  In x l -> g x = true -> f x = false ->
  (List.length (filter f l) < List.length (filter g l))%nat.
Proof.
  intros Hfg. induction l as [|a l IH]; simpl; intros Hin Hg Hf; [contradiction|].
  destruct Hin as [-> | Hin].
  - rewrite Hf, Hg. simpl. pose proof (filter_length_mono f g l Hfg). lia.
  - specialize (IH Hin Hg Hf). destruct (f a) eqn:Ef.
    + rewrite (Hfg a Ef). simpl. lia.
    + destruct (g a); simpl; lia.
Qed.

(** A day with activity has a qualifying row that no earlier day has. *)
Lemma activity_uses_a_row (from : list LearningProgress.row) (p_user_id : option uuid)
  (day : date) :
  has_activity to_date from p_user_id day = true ->
  (List.length (filter (qualifies_upto to_date p_user_id (day - 1)%Z) from)
   < List.length (filter (qualifies_upto to_date p_user_id day) from))%nat.
Proof.
  unfold has_activity. rewrite existsb_exists. intros (r & Hin & Hq).
  unfold qualifies in Hq. rewrite !is_true_and, !andb_true_iff in Hq.
  destruct Hq as [[Hu Hd] Hc]. apply is_true_on_day in Hd as (ts & Hts & Hd).
  apply filter_length_strict with r; trivial.
  - intros y. unfold qualifies_upto. rewrite !andb_true_iff.
    intros [Hy Hle]. split; [exact Hy|].
    destruct (LearningProgress.updated_at y) as [ts'|]; [|discriminate].
    apply Z.leb_le in Hle. apply Z.leb_le. lia.
  - unfold qualifies_upto. rewrite Hu, Hc, Hts. cbn [andb]. apply Z.leb_le. lia.
  - unfold qualifies_upto. rewrite Hu, Hc, Hts. cbn [andb]. apply Z.leb_gt. lia.
Qed.

(** The loop exits: after exactly [n + 1] iterations for some [n] that is at
    most the number of rows qualifying for [day] or an earlier day. *)
Lemma streak_loop_exits (from : list LearningProgress.row) (p_user_id : option uuid)
  (m : nat) :
  forall day : date,
    (List.length (filter (qualifies_upto to_date p_user_id day) from) <= m)%nat ->
    exists n : nat,
      (n <= List.length (filter (qualifies_upto to_date p_user_id day) from))%nat
      /\ forall fuel streak,
           streak_loop to_date fuel from p_user_id streak day
           = if (n <? fuel)%nat then Some (streak + Z.of_nat n) else None.
Proof.
  induction m as [|m IH]; intros day Hm.
  - exists O. split; [lia|]. intros [|fuel] streak; [reflexivity|].
    cbn [streak_loop]. destruct (has_activity to_date from p_user_id day) eqn:E.
    + apply activity_uses_a_row in E. lia.
    + cbn [negb Nat.ltb Nat.leb]. f_equal. simpl. lia.
  - destruct (has_activity to_date from p_user_id day) eqn:E.
    + pose proof (activity_uses_a_row from p_user_id day E) as Hlt.
      destruct (IH (day - 1) ltac:(lia)) as (n & Hn & Hloop).
      exists (S n). split; [lia|]. intros [|fuel] streak; [reflexivity|].
      cbn [streak_loop]. rewrite E. cbn [negb]. rewrite Hloop.
      change (S n <? S fuel)%nat with (n <? fuel)%nat.
      destruct (n <? fuel)%nat; [f_equal; lia | reflexivity].
    + exists O. split; [lia|]. intros [|fuel] streak; [reflexivity|].
      cbn [streak_loop]. rewrite E. cbn [negb Nat.ltb Nat.leb]. f_equal. simpl. lia.
Qed.

End StreakProperties.

Lemma has_activity_active_on (to_date : timestamptz -> date) (who : session)
  (s : store) (t : uuid) (day : date) :
  who = authenticated t \/ who = table_owner ->
  (has_activity to_date (visible who (learning_progress s)) (Some t) day = true
   <-> active_on to_date s t day).
Proof.
  intros Hwho. rewrite has_activity_iff. unfold active_on.
  destruct Hwho as [-> | ->].
  - rewrite (visible_authenticated (entity_owner_policies LearningProgress)).
    split; intros (r & ts & Hin & Hrest); exists r, ts.
    + apply (owned_by_In (T := learning_progress_table)) in Hin. tauto.
    + split; [|exact Hrest].
      apply (owned_by_In (T := learning_progress_table)). tauto.
  - now rewrite (visible_owner_role (T := learning_progress_table)).
Qed.

(** C3.  Let [get_learning_streak(t)] be called by tenant [t] itself (or by
    the owner role).  If [t] has a completed progress row updated on each of
    the [n] calendar days today, yesterday, ..., [n - 1] days ago and none
    updated [n] days ago, the loop exits with streak exactly [n] (whenever it
    is given more than [n] iterations).  In particular, without such a row
    for today the result is 0 whatever happened on earlier days. *)
Theorem learning_streak_exact (to_date : timestamptz -> date) (today : date)
  (who : session) (s : store) (t : uuid)
  (Hwho : who = authenticated t \/ who = table_owner) :
  (forall n : nat,
     (forall k, (k < n)%nat -> active_on to_date s t (today - Z.of_nat k)) ->
     ~ active_on to_date s t (today - Z.of_nat n) ->
     forall fuel, (n < fuel)%nat ->
       get_learning_streak to_date today fuel who s (Some t) = Some (Z.of_nat n))
  /\ (~ active_on to_date s t today ->
      forall fuel, (0 < fuel)%nat ->
        get_learning_streak to_date today fuel who s (Some t) = Some 0).
Proof.
  assert (Hrun : forall n : nat,
            (forall k, (k < n)%nat -> active_on to_date s t (today - Z.of_nat k)) ->
            ~ active_on to_date s t (today - Z.of_nat n) ->
            forall fuel, (n < fuel)%nat ->
              get_learning_streak to_date today fuel who s (Some t) = Some (Z.of_nat n)).
  { intros n Hdays Hgap fuel Hfuel. unfold get_learning_streak.
    rewrite (streak_loop_run to_date _ (Some t) n fuel 0 today); [reflexivity | | | exact Hfuel].
    - intros k Hk. apply (has_activity_active_on to_date who s t _ Hwho). now apply Hdays.
    - apply not_true_is_false. intros H.
      apply (has_activity_active_on to_date who s t _ Hwho) in H. now apply Hgap. }
  split; [exact Hrun|].
  intros Hnone fuel Hfuel. apply (Hrun O); [intros k Hk; lia | | exact Hfuel].
  now replace (today - Z.of_nat 0) with today by (simpl; lia).
Qed.

Lemma learning_streak_exact_witness :
  (authenticated 1%N = authenticated 1%N \/ authenticated 1%N = table_owner)
  /\ get_learning_streak utc_date 20000 5 (authenticated 1%N) Sample.four_days (Some 1%N)
     = Some 4.
Proof.
  assert (Hwho : authenticated 1%N = authenticated 1%N \/ authenticated 1%N = table_owner)
    by (left; reflexivity).
  split; [exact Hwho|].
  apply (proj1 (learning_streak_exact utc_date 20000 (authenticated 1%N)
                  Sample.four_days 1%N Hwho) 4%nat).
  - intros k Hk.
    apply (has_activity_active_on utc_date (authenticated 1%N) Sample.four_days 1%N _ Hwho).
    destruct k as [|[|[|[|k]]]]; [reflexivity .. | lia].
  - intros H.
    apply (has_activity_active_on utc_date (authenticated 1%N) Sample.four_days 1%N _ Hwho)
      in H.
    discriminate H.
  - lia.
Defined.

(** C9.  For every store (a finite list of rows), session and tenant [t],
    the loop of [get_learning_streak(t)] exits after exactly [n + 1]
    iterations for some [n], which is the streak returned: with more than [n]
    iterations allowed the call returns [n], with fewer it has not finished.
    [n] is at most the number of [learning_progress] rows [t] owns, and the
    whole run is the same in any store in which [t] owns the same rows: the
    number of iterations depends on this tenant's rows only. *)
Theorem learning_streak_terminates (to_date : timestamptz -> date) (today : date)
  (who : session) (s : store) (t : uuid) :
  exists n : nat,
    (forall fuel,
       get_learning_streak to_date today fuel who s (Some t)
       = if (n <? fuel)%nat then Some (Z.of_nat n) else None)
    /\ Z.of_nat n <= count (fun _ => true) (owned_by t (learning_progress s))
    /\ (forall s2,
          owned_by t (learning_progress s2) = owned_by t (learning_progress s) ->
          forall fuel,
            get_learning_streak to_date today fuel who s2 (Some t)
            = get_learning_streak to_date today fuel who s (Some t)).
Proof.
  assert (Hown : forall s0 fuel,
            get_learning_streak to_date today fuel who s0 (Some t)
            = streak_loop to_date fuel (visible who (owned_by t (learning_progress s0)))
                (Some t) 0 today).
  { intros s0 fuel. unfold get_learning_streak. apply streak_loop_ext.
    intros day. apply has_activity_visible_owned. }
  set (from := visible who (owned_by t (learning_progress s))).
  destruct (streak_loop_exits to_date from (Some t) _ today (le_n _)) as (n & Hn & Hloop).
  exists n. split; [|split].
  - intros fuel. rewrite Hown. fold from. rewrite Hloop. reflexivity.
  - unfold count. rewrite filter_true.
    pose proof (filter_length_le (qualifies_upto to_date (Some t) today) from) as H1.
    pose proof (filter_length_le (passes select_using who)
                  (owned_by t (learning_progress s))) as H2.
    unfold from, visible in *. lia.
  - intros s2 Hsame fuel. rewrite !Hown. now rewrite Hsame.
Qed.

(** * Further properties of the schema *)

(** ** Required columns and enumerations of the other tables *)

Lemma present_true_iff {A : Type} (x : option A) : present x = true <-> x <> None.
Proof. destruct x; simpl; split; congruence. Qed.

Lemma exec_insert_policy_ok (e : entity) (who : session) (s : store) (r : row_of e) :
  passes insert_check who r = true ->
  exec s (Insert e who r)
  = (_ <- constraints (tenants s) (rows s e) r ;;
     Ok (with_rows s e (rows s e ++ [r])%list)).
Proof.
  intros Hp. cbn [exec]. unfold insert. rewrite Hp. cbn [negb].
  now destruct (constraints (tenants s) (rows s e) r) as [[]|err].
Qed.

Lemma constraints_not_null_err {row : Type} {T : Table row} (users : list uuid)
  (others : list row) (r : row) :
  forallb (fun b => b) (not_null r) = false ->
  constraints users others r = Err not_null_violation.
Proof. intros H. unfold constraints. now rewrite H. Qed.

Lemma constraints_check_err {row : Type} {T : Table row} (users : list uuid)
  (others : list row) (r : row) :
  forallb (fun b => b) (not_null r) = true ->
  forallb SQL.not_false (checks r) = false ->
  constraints users others r = Err check_violation.
Proof. intros Hn Hc. unfold constraints. now rewrite Hn, Hc. Qed.

Lemma application_checks_iff (r : Applications.row) :
  forallb SQL.not_false (checks r) = true <->
  absent_or (fun v => In v ["applied"; "viewed"; "interview"; "offer"; "rejected"])
            (Applications.status r).
Proof.
  cbn [checks applications_table forallb]. rewrite andb_true_r.
  unfold Applications.status_check. apply not_false_in_list.
Qed.

(** An application that passes the session's insert policy, has a free key
    and an existing owner is accepted exactly when [job_title] and [company]
    are present and [status] is absent or one of the five statuses.  A
    missing [job_title] or [company] raises [not_null_violation] (also when
    the status is wrong, since [NOT NULL] is evaluated first); with both
    present, a status outside the set raises [check_violation]. *)
Theorem application_insert_accepted_iff (s : store) (who : session)
  (r : Applications.row)
  (Hpolicy : passes insert_check who r = true)
  (Hkey : clashes (applications s) r = false)
  (Howner : references_user (tenants s) r = true) :
  (exec s (Insert Application who r)
     = Ok (with_rows s Application (applications s ++ [r])%list)
   <-> Applications.job_title r <> None /\ Applications.company r <> None
       /\ absent_or (fun v => In v ["applied"; "viewed"; "interview"; "offer"; "rejected"])
                    (Applications.status r))
  /\ (Applications.job_title r = None \/ Applications.company r = None ->
      exec s (Insert Application who r) = Err not_null_violation)
  /\ (Applications.job_title r <> None -> Applications.company r <> None ->
      present_and (fun v => ~ In v ["applied"; "viewed"; "interview"; "offer"; "rejected"])
                  (Applications.status r) ->
      exec s (Insert Application who r) = Err check_violation).
Proof.
  split; [|split].
  - rewrite (exec_insert_ok_iff Application), constraints_ok_iff, application_checks_iff.
    cbn [not_null applications_table entity_table forallb rows].
    rewrite andb_true_r, andb_true_iff, !present_true_iff. intuition.
  - intros Hmiss. rewrite (exec_insert_policy_ok Application) by exact Hpolicy.
    rewrite constraints_not_null_err; [reflexivity|].
    cbn [not_null applications_table entity_table forallb].
    destruct Hmiss as [-> | ->]; cbn [present andb]; [reflexivity|].
    now destruct (present (Applications.job_title r)).
  - intros Ht Hc Hbad. rewrite (exec_insert_policy_ok Application) by exact Hpolicy.
    rewrite constraints_check_err; [reflexivity | |].
    + cbn [not_null applications_table entity_table forallb].
      apply present_true_iff in Ht, Hc. now rewrite Ht, Hc.
    + apply not_true_is_false.
      change (~ forallb SQL.not_false (@checks _ applications_table r) = true).
      rewrite application_checks_iff.
      destruct (Applications.status r); simpl in *; tauto.
Qed.

Lemma application_insert_accepted_iff_witness :
  passes insert_check (authenticated 1%N)
    (Sample.application 9%N (Some 1%N) (Some "hired")) = true
  /\ exec Sample.signed_up
       (Insert Application (authenticated 1%N)
          (Sample.application 9%N (Some 1%N) (Some "hired")))
     = Err check_violation.
Proof.
  split; [reflexivity|].
  apply (proj2 (proj2 (application_insert_accepted_iff Sample.signed_up (authenticated 1%N)
                         (Sample.application 9%N (Some 1%N) (Some "hired"))
                         eq_refl eq_refl eq_refl))).
  - discriminate.
  - discriminate.
  - simpl. intros [H | [H | [H | [H | [H | []]]]]]; discriminate H.
Defined.

(** A saved job (with the policy, key and owner in order) is accepted
    exactly when [job_title] and [company] are present, and a progress row
    exactly when [milestone_id] is present; otherwise the insert raises
    [not_null_violation]. *)
Theorem required_columns (s : store) (who : session)
  (j : SavedJobs.row) (p : LearningProgress.row)
  (Hj_policy : passes insert_check who j = true)
  (Hj_key : clashes (saved_jobs s) j = false)
  (Hj_owner : references_user (tenants s) j = true)
  (Hp_policy : passes insert_check who p = true)
  (Hp_key : clashes (learning_progress s) p = false)
  (Hp_owner : references_user (tenants s) p = true) :
  (exec s (Insert SavedJob who j) = Ok (with_rows s SavedJob (saved_jobs s ++ [j])%list)
   <-> SavedJobs.job_title j <> None /\ SavedJobs.company j <> None)
  /\ (SavedJobs.job_title j = None \/ SavedJobs.company j = None ->
      exec s (Insert SavedJob who j) = Err not_null_violation)
  /\ (exec s (Insert LearningProgress who p)
        = Ok (with_rows s LearningProgress (learning_progress s ++ [p])%list)
      <-> LearningProgress.milestone_id p <> None)
  /\ (LearningProgress.milestone_id p = None ->
      exec s (Insert LearningProgress who p) = Err not_null_violation).
Proof.
  split; [|split; [|split]].
  - rewrite (exec_insert_ok_iff SavedJob), constraints_ok_iff.
    cbn [not_null checks saved_jobs_table entity_table forallb rows].
    rewrite andb_true_r, andb_true_iff, !present_true_iff. intuition.
  - intros Hmiss. rewrite (exec_insert_policy_ok SavedJob) by exact Hj_policy.
    rewrite constraints_not_null_err; [reflexivity|].
    cbn [not_null saved_jobs_table entity_table forallb].
    destruct Hmiss as [-> | ->]; cbn [present andb]; [reflexivity|].
    now destruct (present (SavedJobs.job_title j)).
  - rewrite (exec_insert_ok_iff LearningProgress), constraints_ok_iff.
    cbn [not_null checks learning_progress_table entity_table forallb rows].
    rewrite andb_true_r, present_true_iff. intuition.
  - intros Hmiss. rewrite (exec_insert_policy_ok LearningProgress) by exact Hp_policy.
    rewrite constraints_not_null_err; [reflexivity|].
    cbn [not_null learning_progress_table entity_table forallb].
    now rewrite Hmiss.
Qed.

Lemma required_columns_witness :
  exec Sample.signed_up
    (Insert SavedJob (authenticated 1%N)
       (Scenario.saved_job 51%N (Some 1%N) None (Some "Acme")))
  = Err not_null_violation
  /\ exec Sample.signed_up
       (Insert LearningProgress (authenticated 1%N)
          (Sample.progress 11%N (Some 1%N) "m1" None None))
     = Ok (with_rows Sample.signed_up LearningProgress
             [Sample.progress 11%N (Some 1%N) "m1" None None]).
Proof.
  destruct (required_columns Sample.signed_up (authenticated 1%N)
              (Scenario.saved_job 51%N (Some 1%N) None (Some "Acme"))
              (Sample.progress 11%N (Some 1%N) "m1" None None)
              eq_refl eq_refl eq_refl eq_refl eq_refl eq_refl)
    as (_ & Hjob & Hprog & _).
  split.
  - apply Hjob. left. reflexivity.
  - apply Hprog. discriminate.
Defined.

(** An interview session whose [interview_type] is present and not one of
    behavioral, technical, hr, case violates the [CHECK] whatever the table
    holds; the insert fails (with [check_violation] when the row passes the
    session's insert policy) and the store stays as it was. *)
Theorem interview_type_out_of_set_rejected (s : store) (who : session)
  (r : InterviewSessions.row)
  (Hbad : present_and (fun v => ~ In v ["behavioral"; "technical"; "hr"; "case"])
                      (InterviewSessions.interview_type r)) :
  (forall users others, constraints users others r = Err check_violation)
  /\ (exists err, exec s (Insert InterviewSession who r) = Err err
                  /\ (passes insert_check who r = true -> err = check_violation))
  /\ exec_keep s (Insert InterviewSession who r) = s.
Proof.
  assert (Hchk : forallb SQL.not_false (checks r) = false).
  { apply not_true_is_false. rewrite interview_checks_iff.
    destruct (InterviewSessions.interview_type r); simpl in *; tauto. }
  assert (Hcon : forall users others, constraints users others r = Err check_violation).
  { intros users others. unfold constraints. now rewrite Hchk. }
  assert (Hex : exists err, exec s (Insert InterviewSession who r) = Err err
                  /\ (passes insert_check who r = true -> err = check_violation)).
  { simpl exec. unfold insert.
    destruct (passes insert_check who r); simpl.
    - rewrite Hcon. simpl. eauto.
    - exists insufficient_privilege. split; [reflexivity | discriminate]. }
  split; [exact Hcon | split; [exact Hex|]].
  destruct Hex as (err & Herr & _). now apply exec_keep_err with err.
Qed.

Lemma interview_type_out_of_set_rejected_witness :
  present_and (fun v => ~ In v ["behavioral"; "technical"; "hr"; "case"])
    (InterviewSessions.interview_type (Sample.interview 8%N (Some 1%N) (Some "panel")))
  /\ exec_keep Sample.signed_up
       (Insert InterviewSession (authenticated 1%N)
          (Sample.interview 8%N (Some 1%N) (Some "panel")))
     = Sample.signed_up.
Proof.
  assert (H : present_and (fun v => ~ In v ["behavioral"; "technical"; "hr"; "case"])
                (InterviewSessions.interview_type
                   (Sample.interview 8%N (Some 1%N) (Some "panel")))).
  { simpl. intros [H | [H | [H | [H | []]]]]; discriminate H. }
  split; [exact H|].
  exact (proj2 (proj2 (interview_type_out_of_set_rejected Sample.signed_up
                         (authenticated 1%N) _ H))).
Defined.

(** ** Commands without a policy, and what a tenant can delete or update *)

Lemma with_rows_same (s : store) (e : entity) : with_rows s e (rows s e) = s.
Proof. destruct e, s; reflexivity. Qed.

Lemma filter_all {A : Type} (p : A -> bool) (l : list A) :
  (forall x, In x l -> p x = true) -> filter p l = l.
Proof.
  induction l as [|a l IH]; simpl; intros H; [reflexivity|].
  rewrite (H a) by now left. f_equal. apply IH. intros x Hx. apply H. now right.
Qed.

Section NoPolicy.

Context {row : Type} {T : Table row}.
Variable who : session.
Hypothesis Hwho : bypass_rls who = false.

Lemma passes_none (r : row) : passes None who r = false.
Proof. unfold passes. now rewrite Hwho. Qed.

Lemma update_without_policy (users : list uuid) (tbl : list row) (target : uuid)
  (set : row -> row) :
  update_using = None -> update who users tbl target set = Ok tbl.
Proof.
  intros Hnone. unfold update. rewrite filter_none; [reflexivity|].
  intros r _. unfold targeted. rewrite Hnone, passes_none. apply andb_false_r.
Qed.

Lemma delete_without_policy (tbl : list row) (cond : row -> bool) :
  delete_using = None -> delete who tbl cond = tbl.
Proof.
  intros Hnone. unfold delete. apply filter_all.
  intros r _. rewrite Hnone, passes_none. now rewrite andb_false_r.
Qed.

End NoPolicy.

(** The wellness logs, saved jobs and interview sessions have no [UPDATE]
    policy, and only the saved jobs have a [DELETE] policy: for a session
    that does not bypass row-level security, an [UPDATE] on one of those
    three tables and a [DELETE] on any table but [saved_jobs] succeed and
    change nothing. *)
Theorem commands_without_policy (s : store) (who : session)
  (Hwho : bypass_rls who = false) :
  (forall e, In e [WellnessLog; SavedJob; InterviewSession] ->
     forall target set, exec s (Update e who target set) = Ok s)
  /\ (forall e, e <> SavedJob ->
        forall cond, exec s (Delete e who cond) = Ok s).
Proof.
  split.
  - intros e He target set. cbn [exec].
    rewrite (update_without_policy who Hwho).
    + cbn [bind]. now rewrite with_rows_same.
    + destruct He as [<- | [<- | [<- | []]]]; reflexivity.
  - intros e He cond. cbn [exec].
    rewrite (delete_without_policy who Hwho).
    + now rewrite with_rows_same.
    + destruct e; try reflexivity. now contradiction He.
Qed.

Lemma commands_without_policy_witness :
  bypass_rls (authenticated 1%N) = false
  /\ exec Scenario.with_saved_jobs
       (Update WellnessLog (authenticated 1%N) 61%N
          (fun _ => Sample.wellness_log 61%N (Some 1%N) (Some "great") (Some 10) (Some 1)))
     = Ok Scenario.with_saved_jobs
  /\ exec Scenario.with_saved_jobs
       (Delete WellnessLog (authenticated 1%N) (fun _ => true))
     = Ok Scenario.with_saved_jobs.
Proof.
  split; [reflexivity|].
  destruct (commands_without_policy Scenario.with_saved_jobs (authenticated 1%N) eq_refl)
    as [Hupd Hdel].
  split.
  - apply Hupd. simpl. auto.
  - apply Hdel. discriminate.
Defined.

(** [DELETE FROM saved_jobs WHERE cond] issued as tenant [t] removes exactly
    the rows [t] owns that satisfy [cond]: every other row stays, in order,
    the other tables are untouched, and a [SELECT ... WHERE cond] by [t]
    afterwards returns nothing. *)
Theorem saved_jobs_delete (s : store) (t : uuid) (cond : SavedJobs.row -> bool) :
  exists s',
    exec s (Delete SavedJob (authenticated t) cond) = Ok s'
    /\ saved_jobs s'
       = filter (fun r => negb (SQL.is_true (SQL.eq N.eqb (SavedJobs.user_id r) (Some t))
                                && cond r))
                (saved_jobs s)
    /\ select (authenticated t) (saved_jobs s') cond = []
    /\ (forall u, u <> t -> owned_by u (saved_jobs s') = owned_by u (saved_jobs s))
    /\ (forall e, e <> SavedJob -> rows s' e = rows s e).
Proof.
  exists (with_rows s SavedJob (delete (authenticated t) (saved_jobs s) cond)).
  split; [reflexivity|].
  pose proof (entity_owner_policies SavedJob) as HP.
  assert (Hshape : delete (authenticated t) (saved_jobs s) cond
                   = filter (fun r => negb (SQL.is_true
                                              (SQL.eq N.eqb (SavedJobs.user_id r) (Some t))
                                            && cond r))
                            (saved_jobs s)).
  { unfold delete. apply filter_ext. intros r.
    cbn [delete_using select_using saved_jobs_table].
    unfold passes, own_row. cbn [bypass_rls auth_uid orb].
    rewrite eq_uuid_sym. now rewrite andb_diag. }
  cbn [with_rows saved_jobs]. split; [exact Hshape|]. split; [|split].
  - rewrite Hshape. unfold select.
    rewrite (visible_authenticated HP). apply filter_none.
    intros r Hr. apply (owned_by_In (T := saved_jobs_table)) in Hr as [Hr Hown].
    apply filter_In in Hr as [_ Hkeep].
    change (SavedJobs.user_id r = Some t) in Hown.
    apply is_true_eq_some in Hown. rewrite Hown in Hkeep.
    now destruct (cond r).
  - intros u Hne. apply (delete_keeps_others HP t u); congruence.
  - intros e He. destruct e; try reflexivity. now contradiction He.
Qed.

Section UpdateOwnership.

Context {row : Type} {T : Table row}.
Hypothesis HP : owner_policies T.
Variable t : uuid.

Lemma filter_map_same {A : Type} (p : A -> bool) (f : A -> A) (l : list A) :
  (forall x, p (f x) = p x) ->
  List.length (filter p (map f l)) = List.length (filter p l).
Proof.
  intros H. induction l as [|a l IH]; simpl; [reflexivity|].
  rewrite H. destruct (p a); simpl; now rewrite IH.
Qed.

(** An accepted update keeps the number of rows each tenant owns. *)
Lemma update_keeps_counts (users : list uuid) (tbl tbl' : list row) (target : uuid)
  (set : row -> row) :
  update (authenticated t) users tbl target set = Ok tbl' ->
  List.length tbl' = List.length tbl
  /\ forall u, List.length (owned_by u tbl') = List.length (owned_by u tbl).
Proof.
  unfold update.
  destruct (filter (targeted (authenticated t) target) tbl) as [|r rest];
    [intros [= <-]; now split|].
  destruct (passes update_using (authenticated t) (set r)) eqn:Hnew; cbn [negb];
    [|discriminate].
  apply (passes_update HP) in Hnew.
  destruct (constraints users _ (set r)) as [[]|err]; cbn [bind]; [|discriminate].
  intros [= <-]. split; [apply length_map|].
  intros u. unfold owned_by. apply filter_map_same. intros o.
  destruct (targeted (authenticated t) target o) eqn:Ho; [|reflexivity].
  apply (targeted_owner HP) in Ho. now rewrite Hnew, Ho.
Qed.

(** An update whose new tuple is not owned by the caller is refused as
    soon as it has a row to work on. *)
Lemma update_giving_away_refused (users : list uuid) (tbl : list row) (target : uuid)
  (set : row -> row) (r0 : row) :
  update_using = Some (own_row user_id) ->
  (forall r, user_id (set r) <> Some t) ->
  In r0 tbl -> pkey r0 = target -> user_id r0 = Some t ->
  update (authenticated t) users tbl target set = Err insufficient_privilege.
Proof.
  intros Hpol Hset Hin Hkey Hown. unfold update.
  destruct (filter (targeted (authenticated t) target) tbl) as [|r rest] eqn:E.
  - assert (Hr0 : In r0 (filter (targeted (authenticated t) target) tbl)).
    { apply filter_In. split; [exact Hin|]. unfold targeted.
      rewrite Hkey, N.eqb_refl, Hpol. cbn [andb].
      apply andb_true_iff. split; [now apply (passes_select HP) | now apply passes_own]. }
    rewrite E in Hr0. contradiction.
  - destruct (passes update_using (authenticated t) (set r)) eqn:Hnew; [|reflexivity].
    apply (passes_update HP) in Hnew. now apply Hset in Hnew.
Qed.

End UpdateOwnership.

(** An accepted [UPDATE] issued as tenant [t] neither adds nor removes rows
    and leaves the number of rows of every tenant as it was: a row cannot be
    handed over to another tenant. *)
Theorem update_keeps_ownership (e : entity) (s s' : store) (t target : uuid)
  (set : row_of e -> row_of e)
  (Hexec : exec s (Update e (authenticated t) target set) = Ok s') :
  List.length (rows s' e) = List.length (rows s e)
  /\ (forall u, List.length (owned_by u (rows s' e)) = List.length (owned_by u (rows s e)))
  /\ (forall e', e' <> e -> rows s' e' = rows s e').
Proof.
  cbn [exec] in Hexec.
  destruct (update (authenticated t) (tenants s) (rows s e) target set) as [tbl|err] eqn:E;
    cbn [bind] in Hexec; [|discriminate].
  injection Hexec as <-.
  destruct (update_keeps_counts (entity_owner_policies e) t _ _ _ _ _ E) as [Hlen Hown].
  rewrite rows_with_rows_same. split; [exact Hlen | split; [exact Hown|]].
  intros e' Hne. apply rows_with_rows_other.
  destruct e, e'; try reflexivity; now contradiction Hne.
Qed.

Lemma update_keeps_ownership_witness :
  exec Sample.four_applications
    (Update Application (authenticated 1%N) 41%N
       (fun _ => Sample.application 41%N (Some 1%N) (Some "rejected")))
  = Ok (with_rows Sample.four_applications Application
          [Sample.application 41%N (Some 1%N) (Some "rejected");
           Sample.application 42%N (Some 1%N) (Some "applied");
           Sample.application 43%N (Some 1%N) (Some "interview");
           Sample.application 44%N (Some 1%N) (Some "offer")])
  /\ List.length
       (owned_by 1%N
          [Sample.application 41%N (Some 1%N) (Some "rejected");
           Sample.application 42%N (Some 1%N) (Some "applied");
           Sample.application 43%N (Some 1%N) (Some "interview");
           Sample.application 44%N (Some 1%N) (Some "offer")])
     = 4%nat.
Proof.
  assert (H : exec Sample.four_applications
                (Update Application (authenticated 1%N) 41%N
                   (fun _ => Sample.application 41%N (Some 1%N) (Some "rejected")))
              = Ok (with_rows Sample.four_applications Application
                      [Sample.application 41%N (Some 1%N) (Some "rejected");
                       Sample.application 42%N (Some 1%N) (Some "applied");
                       Sample.application 43%N (Some 1%N) (Some "interview");
                       Sample.application 44%N (Some 1%N) (Some "offer")]))
    by reflexivity.
  split; [exact H|].
  exact (proj1 (proj2 (update_keeps_ownership Application _ _ 1%N 41%N _ H)) 1%N).
Defined.

(** On a table with an [UPDATE] policy, an [UPDATE] issued as tenant [t] on
    one of its own rows that would set the owner column to anything but [t]
    is refused with [insufficient_privilege]. *)
Theorem update_cannot_give_away (e : entity) (s : store) (t target : uuid)
  (set : row_of e -> row_of e) (r0 : row_of e)
  (Hpolicy : In e [Profile; Application; LearningProgress])
  (Hset : forall r, user_id (set r) <> Some t)
  (Hrow : In r0 (rows s e))
  (Hkey : pkey r0 = target)
  (Hown : user_id r0 = Some t) :
  exec s (Update e (authenticated t) target set) = Err insufficient_privilege.
Proof.
  cbn [exec].
  rewrite (update_giving_away_refused (entity_owner_policies e) t _ _ _ _ r0);
    trivial.
  destruct Hpolicy as [<- | [<- | [<- | []]]]; reflexivity.
Qed.

Lemma update_cannot_give_away_witness :
  In (Sample.application 41%N (Some 1%N) (Some "applied"))
     (rows Sample.four_applications Application)
  /\ exec Sample.four_applications
       (Update Application (authenticated 1%N) 41%N
          (fun _ => Sample.application 41%N (Some 2%N) (Some "applied")))
     = Err insufficient_privilege.
Proof.
  assert (H : In (Sample.application 41%N (Some 1%N) (Some "applied"))
                (rows Sample.four_applications Application)) by (left; reflexivity).
  split; [exact H|].
  apply (update_cannot_give_away Application Sample.four_applications 1%N 41%N
           (fun _ => Sample.application 41%N (Some 2%N) (Some "applied"))
           (Sample.application 41%N (Some 1%N) (Some "applied"))).
  - right. left. reflexivity.
  - intros r. discriminate.
  - exact H.
  - reflexivity.
  - reflexivity.
Defined.

(** ** The anonymous session *)

Lemma passes_anon {row : Type} {T : Table row} (r : row) :
  passes (Some (own_row user_id)) anon r = false.
Proof. reflexivity. Qed.

(** Without a signed-in tenant [auth.uid()] is [NULL] and no policy
    expression is true: on every table an anonymous session reads no row,
    every insert is refused with [insufficient_privilege], updates and
    deletes change nothing, and both helper functions report nothing. *)
Theorem anonymous_session (s : store) (e : entity) :
  (forall cond, select anon (rows s e) cond = [])
  /\ (forall r, exec s (Insert e anon r) = Err insufficient_privilege)
  /\ (forall target set, exec s (Update e anon target set) = Ok s)
  /\ (forall cond, exec s (Delete e anon cond) = Ok s)
  /\ (forall p_user_id,
        get_application_stats anon s p_user_id
        = Ok {| total := 0; applied := 0; interviews := 0; offers := 0; rejected := 0 |})
  /\ (forall to_date today fuel p_user_id,
        get_learning_streak to_date today (S fuel) anon s p_user_id = Some 0).
Proof.
  pose proof (entity_owner_policies e) as HP.
  assert (Hsel : forall r : row_of e, passes select_using anon r = false).
  { intros r. rewrite (op_select _ HP). apply passes_anon. }
  split; [|split; [|split; [|split; [|split]]]].
  - intros cond. unfold select. now rewrite (visible_anon HP).
  - intros r. cbn [exec]. unfold insert.
    rewrite (op_insert _ HP), passes_anon. reflexivity.
  - intros target set. cbn [exec]. unfold update.
    rewrite filter_none.
    + cbn [bind]. now rewrite with_rows_same.
    + intros r _. unfold targeted. rewrite Hsel. now rewrite andb_false_r.
  - intros cond. cbn [exec]. unfold delete. rewrite filter_all.
    + now rewrite with_rows_same.
    + intros r _. now rewrite Hsel.
  - intros p_user_id. unfold get_application_stats.
    now rewrite (visible_anon (entity_owner_policies Application)).
  - intros to_date today fuel p_user_id. unfold get_learning_streak.
    now rewrite (visible_anon (entity_owner_policies LearningProgress)).
Qed.

(** ** Keys and references in reachable stores *)

(** Referential integrity: in a reachable store the owner column of every
    row, in every table, is [NULL] or the id of a tenant in [auth.users]. *)
Theorem owners_are_tenants (s : store) (e : entity) (r : row_of e) (u : uuid)
  (Hreach : reachable s)
  (Hrow : In r (rows s e))
  (Hown : user_id r = Some u) :
  In u (tenants s).
Proof.
  destruct (reachable_store_ok s Hreach) as [_ Htabs].
  destruct (Htabs e) as [Hrows _]. rewrite Forall_forall in Hrows.
  destruct (Hrows r Hrow) as (_ & _ & Hfk).
  rewrite references_user_iff in Hfk. now apply Hfk.
Qed.

Lemma owners_are_tenants_witness :
  reachable Scenario.with_saved_jobs
  /\ In 2%N (tenants Scenario.with_saved_jobs).
Proof.
  assert (H : reachable Scenario.with_saved_jobs) by apply run_reachable.
  split; [exact H|].
  apply (owners_are_tenants Scenario.with_saved_jobs SavedJob
           (Scenario.saved_job 53%N (Some 2%N) (Some "Engineer") (Some "Acme")) 2%N H).
  - simpl. auto.
  - reflexivity.
Defined.

(** Primary keys: in a reachable store the tenants have distinct ids and,
    in every table, at most one row has a given [id]. *)
Theorem primary_keys_unique (s : store) (Hreach : reachable s) :
  NoDup (tenants s)
  /\ forall (e : entity) (k : uuid),
       (List.length (filter (fun r => N.eqb (pkey r) k) (rows s e)) <= 1)%nat.
Proof.
  destruct (reachable_store_ok s Hreach) as [Hnd Htabs]. split; [exact Hnd|].
  intros e k. destruct (Htabs e) as [_ Hpairs].
  apply at_most_one; [|exact Hpairs].
  intros a b Ha Hb. apply N.eqb_eq in Ha, Hb. unfold clash.
  rewrite Ha, Hb, N.eqb_refl. reflexivity.
Qed.

Lemma primary_keys_unique_witness :
  reachable Scenario.with_saved_jobs
  /\ (List.length (filter (fun r => N.eqb (pkey r) 52%N)
                     (rows Scenario.with_saved_jobs SavedJob)) <= 1)%nat.
Proof.
  assert (H : reachable Scenario.with_saved_jobs) by apply run_reachable.
  split; [exact H|].
  exact (proj2 (primary_keys_unique Scenario.with_saved_jobs H) SavedJob 52%N).
Defined.

(** ** Round trips *)

(** Insert, then look up: after tenant [t]'s accepted insert of [r], its
    [SELECT ... WHERE id = r.id] on that table returns exactly [r], and
    returned nothing before. *)
Theorem insert_then_select (e : entity) (s s' : store) (t : uuid) (r : row_of e)
  (Hexec : exec s (Insert e (authenticated t) r) = Ok s') :
  select (authenticated t) (rows s' e) (fun x => N.eqb (pkey x) (pkey r)) = [r]
  /\ select (authenticated t) (rows s e) (fun x => N.eqb (pkey x) (pkey r)) = [].
Proof.
  pose proof (entity_owner_policies e) as HP.
  apply exec_insert_inv in Hexec as (-> & Hp & Hc).
  apply (passes_insert HP) in Hp.
  apply constraints_ok_iff in Hc as (_ & _ & Hfree & _).
  assert (Hnone : filter (fun x => N.eqb (pkey x) (pkey r)) (owned_by t (rows s e)) = []).
  { apply filter_none. intros x Hx. apply owned_by_In in Hx as [Hx _].
    unfold clashes in Hfree.
    destruct (N.eqb (pkey x) (pkey r)) eqn:Ek; [|reflexivity].
    assert (Hex : existsb (fun o => N.eqb (pkey o) (pkey r) || unique_clash o r)
                    (rows s e) = true).
    { apply existsb_exists. exists x. split; [exact Hx|]. now rewrite Ek. }
    congruence. }
  unfold select. rewrite rows_with_rows_same, !(visible_authenticated HP), owned_by_app.
  rewrite filter_app, Hnone. split; [|reflexivity].
  unfold owned_by. cbn [filter app].
  assert (Hmine : SQL.is_true (SQL.eq N.eqb (user_id r) (Some t)) = true)
    by now apply is_true_eq_some.
  rewrite Hmine. cbn [filter]. now rewrite N.eqb_refl.
Qed.

Lemma insert_then_select_witness :
  select (authenticated 1%N)
    [Sample.wellness_log 7%N (Some 1%N) (Some "good") (Some 5) (Some 3)]
    (fun x => N.eqb (pkey x) 7%N)
  = [Sample.wellness_log 7%N (Some 1%N) (Some "good") (Some 5) (Some 3)].
Proof.
  exact (proj1 (insert_then_select WellnessLog Sample.signed_up
                  (with_rows Sample.signed_up WellnessLog
                     [Sample.wellness_log 7%N (Some 1%N) (Some "good") (Some 5) (Some 3)])
                  1%N
                  (Sample.wellness_log 7%N (Some 1%N) (Some "good") (Some 5) (Some 3))
                  eq_refl)).
Defined.

Lemma cascade_nothing_owned {row : Type} {T : Table row} (uid : uuid) (tbl : list row) :
  owned_by uid tbl = [] -> cascade uid tbl = tbl.
Proof.
  unfold owned_by, cascade. induction tbl as [|r tbl IH]; simpl; [reflexivity|].
  destruct (SQL.is_true (SQL.eq N.eqb (user_id r) (Some uid))); [discriminate|].
  intros H. simpl. now rewrite IH.
Qed.

Lemma cascade_app {row : Type} {T : Table row} (uid : uuid) (a b : list row) :
  cascade uid (a ++ b) = (cascade uid a ++ cascade uid b)%list.
Proof. apply filter_app. Qed.

(** Sign up, then delete the account: in a reachable store, deleting a
    tenant right after its creation gives back exactly the store from before
    the creation. *)
Theorem create_then_delete_user (d : defaults) (new : AuthUsers.row) (s s' : store)
  (Hreach : reachable s)
  (Hcreate : create_user d new s = Ok s') :
  delete_user (AuthUsers.id new) s' = s.
Proof.
  pose proof (reachable_store_ok s Hreach) as Hok.
  apply create_user_inv in Hcreate as [Hfresh Hhook].
  apply handle_new_user_inv in Hhook as [-> _].
  assert (Hnone : forall e, cascade (AuthUsers.id new) (rows s e) = rows s e).
  { intros e. apply cascade_nothing_owned. now apply no_rows_without_tenant. }
  assert (Husers : filter (fun u => negb (N.eqb (AuthUsers.id u) (AuthUsers.id new)))
                     (auth_users s ++ [new])
                   = auth_users s).
  { rewrite filter_app. cbn [filter]. rewrite N.eqb_refl. cbn [negb].
    rewrite app_nil_r. apply filter_all. intros u Hu.
    destruct (N.eqb_spec (AuthUsers.id u) (AuthUsers.id new)) as [Heq|]; [|reflexivity].
    exfalso. apply Hfresh. rewrite <- Heq. unfold tenants. now apply in_map. }
  assert (H1 : cascade (AuthUsers.id new) (profiles s) = profiles s)
    by exact (Hnone Profile).
  assert (H2 : cascade (AuthUsers.id new) (applications s) = applications s)
    by exact (Hnone Application).
  assert (H3 : cascade (AuthUsers.id new) (learning_progress s) = learning_progress s)
    by exact (Hnone LearningProgress).
  assert (H4 : cascade (AuthUsers.id new) (wellness_logs s) = wellness_logs s)
    by exact (Hnone WellnessLog).
  assert (H5 : cascade (AuthUsers.id new) (saved_jobs s) = saved_jobs s)
    by exact (Hnone SavedJob).
  assert (H6 : cascade (AuthUsers.id new) (interview_sessions s) = interview_sessions s)
    by exact (Hnone InterviewSession).
  assert (Hprof : cascade (AuthUsers.id new) (profiles s ++ [new_profile d new])
                  = profiles s).
  { rewrite cascade_app, H1.
    unfold cascade. cbn [filter user_id profiles_table new_profile Profiles.user_id].
    cbn [SQL.eq SQL.is_true]. rewrite N.eqb_refl. cbn [negb]. apply app_nil_r. }
  unfold delete_user. cbn [with_rows with_users auth_users profiles applications
    learning_progress wellness_logs saved_jobs interview_sessions].
  rewrite Husers, Hprof, H2, H3, H4, H5, H6.
  now destruct s.
Qed.

Lemma create_then_delete_user_witness :
  reachable Scenario.with_saved_jobs
  /\ delete_user 3%N
       (exec_keep Scenario.with_saved_jobs
          (CreateUser (Sample.at_signup 103%N)
             {| AuthUsers.id := 3%N; AuthUsers.email := None;
                AuthUsers.raw_user_meta_data := None |}))
     = Scenario.with_saved_jobs.
Proof.
  assert (H : reachable Scenario.with_saved_jobs) by apply run_reachable.
  split; [exact H|].
  exact (create_then_delete_user (Sample.at_signup 103%N)
           {| AuthUsers.id := 3%N; AuthUsers.email := None;
              AuthUsers.raw_user_meta_data := None |}
           Scenario.with_saved_jobs _ H eq_refl).
Defined.

(** ** The helper functions and the statements around them *)

Lemma int4_ok_inv (z z' : Z) : int4 z = Ok z' -> z' = z /\ z <= int4_max.
Proof.
  unfold int4. destruct (Z.leb_spec int4_min z) as [Hlo|Hlo],
    (Z.leb_spec z int4_max) as [Hhi|Hhi]; cbn [andb]; intros Heq; try discriminate.
  injection Heq as <-. split; [reflexivity | assumption].
Qed.

Lemma get_application_stats_inv (who : session) (s : store) (p_user_id : option uuid)
  (st : application_stats) :
  get_application_stats who s p_user_id = Ok st ->
  total st = count (fun _ => true) (stats_rows who s p_user_id)
  /\ applied st = count (status_is "applied") (stats_rows who s p_user_id)
  /\ interviews st = count (status_is "interview") (stats_rows who s p_user_id)
  /\ offers st = count (status_is "offer") (stats_rows who s p_user_id)
  /\ rejected st = count (status_is "rejected") (stats_rows who s p_user_id)
  /\ total st <= int4_max.
Proof.
  unfold get_application_stats. fold (stats_rows who s p_user_id).
  destruct (int4 (count (fun _ => true) (stats_rows who s p_user_id))) as [a|] eqn:Ea;
    cbn [bind]; [|discriminate].
  destruct (int4 (count (status_is "applied") (stats_rows who s p_user_id))) as [b|] eqn:Eb;
    cbn [bind]; [|discriminate].
  destruct (int4 (count (status_is "interview") (stats_rows who s p_user_id))) as [c|] eqn:Ec;
    cbn [bind]; [|discriminate].
  destruct (int4 (count (status_is "offer") (stats_rows who s p_user_id))) as [d|] eqn:Ed;
    cbn [bind]; [|discriminate].
  destruct (int4 (count (status_is "rejected") (stats_rows who s p_user_id))) as [f|] eqn:Ef;
    cbn [bind]; [|discriminate].
  intros [= <-]. cbn [total applied interviews offers rejected].
  apply int4_ok_inv in Ea as [-> Hmax], Eb as [-> _], Ec as [-> _], Ed as [-> _],
    Ef as [-> _].
  repeat split; trivial.
Qed.

Lemma status_buckets_disjoint (r : Applications.row) :
  indicator (status_is "applied") r + indicator (status_is "interview") r
  + indicator (status_is "offer") r + indicator (status_is "rejected") r <= 1.
Proof.
  unfold indicator, status_is.
  destruct (Applications.status r) as [v|]; cbn [SQL.eq SQL.is_true]; [|lia].
  destruct (String.eqb_spec v "applied") as [->|]; [cbn; lia|].
  destruct (String.eqb_spec v "interview") as [->|]; [cbn; lia|].
  destruct (String.eqb_spec v "offer") as [->|]; [cbn; lia|].
  destruct (String.eqb_spec v "rejected") as [->|]; lia.
Qed.

Lemma count_cons_indicator {A : Type} (p : A -> bool) (a : A) (l : list A) :
  count p (a :: l) = indicator p a + count p l.
Proof. apply count_cons. Qed.

Lemma count_buckets_le_all (l : list Applications.row) :
  count (status_is "applied") l + count (status_is "interview") l
  + count (status_is "offer") l + count (status_is "rejected") l
  <= count (fun _ => true) l.
Proof.
  induction l as [|r l IH]; [unfold count; simpl; lia|].
  rewrite !count_cons_indicator. pose proof (status_buckets_disjoint r).
  unfold indicator at 5. lia.
Qed.

(** Whatever the store holds (reachable or not) and whoever calls, a result
    of [get_application_stats] has non-negative counts, the four status
    counts together never exceed [total], and [total] fits in 32 bits. *)
Theorem application_stats_bounds (who : session) (s : store) (p_user_id : option uuid)
  (st : application_stats)
  (Hst : get_application_stats who s p_user_id = Ok st) :
  0 <= applied st /\ 0 <= interviews st /\ 0 <= offers st /\ 0 <= rejected st
  /\ applied st + interviews st + offers st + rejected st <= total st
  /\ total st <= int4_max.
Proof.
  apply get_application_stats_inv in Hst as (-> & -> & -> & -> & -> & Hmax).
  pose proof (count_buckets_le_all (stats_rows who s p_user_id)).
  repeat split; try apply count_nonneg; assumption.
Qed.

Lemma application_stats_bounds_witness :
  get_application_stats (authenticated 1%N) Sample.with_unset_status (Some 1%N)
  = Ok {| total := 1; applied := 0; interviews := 0; offers := 0; rejected := 0 |}
  /\ 0 + 0 + 0 + 0 <= 1.
Proof.
  split; [reflexivity|].
  exact (proj1 (proj2 (proj2 (proj2 (proj2
           (application_stats_bounds (authenticated 1%N) Sample.with_unset_status
              (Some 1%N) _ eq_refl)))))).
Defined.

Lemma stats_rows_own (s : store) (t : uuid) :
  stats_rows (authenticated t) s (Some t) = owned_by t (applications s).
Proof. apply stats_from. now left. Qed.

Lemma count_app {A : Type} (p : A -> bool) (a b : list A) :
  count p (a ++ b) = count p a + count p b.
Proof. unfold count. rewrite filter_app, length_app. lia. Qed.

Lemma count_one {A : Type} (p : A -> bool) (a : A) : count p [a] = indicator p a.
Proof. unfold count, indicator. simpl. now destruct (p a). Qed.

(** An accepted insert of an application by tenant [t] raises [t]'s [total]
    by one and the count of the row's status by one, and no other count:
    comparing the function's results before and after. *)
Theorem insert_application_counts (s s' : store) (t : uuid) (r : Applications.row)
  (st st' : application_stats)
  (Hexec : exec s (Insert Application (authenticated t) r) = Ok s')
  (Hst : get_application_stats (authenticated t) s (Some t) = Ok st)
  (Hst' : get_application_stats (authenticated t) s' (Some t) = Ok st') :
  total st' = total st + 1
  /\ applied st' = applied st + indicator (status_is "applied") r
  /\ interviews st' = interviews st + indicator (status_is "interview") r
  /\ offers st' = offers st + indicator (status_is "offer") r
  /\ rejected st' = rejected st + indicator (status_is "rejected") r.
Proof.
  apply get_application_stats_inv in Hst as (-> & -> & -> & -> & -> & _).
  apply get_application_stats_inv in Hst' as (-> & -> & -> & -> & -> & _).
  apply (exec_insert_inv Application) in Hexec as (-> & Hp & _).
  apply (passes_insert (entity_owner_policies Application)) in Hp.
  rewrite !stats_rows_own.
  change (applications (with_rows s Application (rows s Application ++ [r])%list))
    with (applications s ++ [r])%list.
  assert (Hmine : owned_by t (applications s ++ [r]) = (owned_by t (applications s) ++ [r])%list).
  { rewrite (owned_by_app (T := applications_table)). f_equal.
    unfold owned_by. cbn [filter].
    change (user_id r) with (Applications.user_id r) in Hp.
    cbn [user_id applications_table]. now rewrite Hp; cbn; rewrite N.eqb_refl. }
  rewrite Hmine, !count_app, !count_one. repeat split; reflexivity.
Qed.

Lemma insert_application_counts_witness :
  exec Sample.signed_up
    (Insert Application (authenticated 1%N)
       (Sample.application 9%N (Some 1%N) (Some "offer")))
  = Ok (with_rows Sample.signed_up Application
          [Sample.application 9%N (Some 1%N) (Some "offer")])
  /\ 1 = 0 + 1 /\ 1 = 0 + 1.
Proof.
  split; [reflexivity|].
  destruct (insert_application_counts Sample.signed_up
              (with_rows Sample.signed_up Application
                 [Sample.application 9%N (Some 1%N) (Some "offer")])
              1%N (Sample.application 9%N (Some 1%N) (Some "offer"))
              {| total := 0; applied := 0; interviews := 0; offers := 0; rejected := 0 |}
              {| total := 1; applied := 0; interviews := 0; offers := 1; rejected := 0 |}
              eq_refl eq_refl eq_refl) as (Ht & _ & _ & Ho & _).
  split; [exact Ht | exact Ho].
Defined.

(** The statements of one tenant leave the rows of another as they were. *)
Lemma tenant_statement_frame (s s' : store) (st : statement) (T1 T2 : uuid) :
  T1 <> T2 -> issued_by (authenticated T1) st -> exec s st = Ok s' ->
  forall e, owned_by T2 (rows s' e) = owned_by T2 (rows s e).
Proof.
  intros Hne Hby Hexec e'.
  destruct st as [d new | uid | e0 who r | e0 who target set | e0 who cond];
    simpl in Hby; try contradiction; subst who; cbn [exec] in Hexec.
  - destruct (insert _ _ _ r) as [tb|err] eqn:E; cbn [bind] in Hexec; [|discriminate].
    injection Hexec as <-. apply table_statement_frame.
    exact (insert_keeps_others (entity_owner_policies e0) T1 T2 Hne _ _ _ r E).
  - destruct (update _ _ _ target set) as [tb|err] eqn:E; cbn [bind] in Hexec;
      [|discriminate].
    injection Hexec as <-. apply table_statement_frame.
    exact (update_keeps_others (entity_owner_policies e0) T1 T2 Hne _ _ _ _ _ E).
  - injection Hexec as <-. apply table_statement_frame.
    exact (delete_keeps_others (entity_owner_policies e0) T1 T2 Hne _ cond).
Qed.

(** What [get_learning_streak(t)] reads are rows owned by [t]. *)
Lemma streak_reads_own_rows (to_date : timestamptz -> date) (today : date) (fuel : nat)
  (who : session) (s : store) (t : uuid) :
  get_learning_streak to_date today fuel who s (Some t)
  = streak_loop to_date fuel (visible who (owned_by t (learning_progress s)))
      (Some t) 0 today.
Proof.
  unfold get_learning_streak. apply streak_loop_ext.
  intros day. apply has_activity_visible_owned.
Qed.

(** Whatever tenant [T1] inserts, updates or deletes, the funnel counts and
    the learning streak that another tenant [T2] gets for itself stay the
    same. *)
Theorem analytics_unaffected_by_others (s s' : store) (st : statement) (T1 T2 : uuid)
  (Hdistinct : T1 <> T2)
  (Hby : issued_by (authenticated T1) st)
  (Hexec : exec s st = Ok s') :
  get_application_stats (authenticated T2) s' (Some T2)
  = get_application_stats (authenticated T2) s (Some T2)
  /\ forall to_date today fuel,
       get_learning_streak to_date today fuel (authenticated T2) s' (Some T2)
       = get_learning_streak to_date today fuel (authenticated T2) s (Some T2).
Proof.
  pose proof (tenant_statement_frame s s' st T1 T2 Hdistinct Hby Hexec) as Hframe.
  assert (Happs : owned_by T2 (applications s') = owned_by T2 (applications s))
    by exact (Hframe Application).
  assert (Hprog : owned_by T2 (learning_progress s') = owned_by T2 (learning_progress s))
    by exact (Hframe LearningProgress).
  split.
  - unfold get_application_stats.
    fold (stats_rows (authenticated T2) s' (Some T2)).
    fold (stats_rows (authenticated T2) s (Some T2)).
    rewrite !stats_rows_own. now rewrite Happs.
  - intros to_date today fuel. rewrite !streak_reads_own_rows. now rewrite Hprog.
Qed.

Lemma analytics_unaffected_by_others_witness :
  1%N <> 2%N
  /\ get_application_stats (authenticated 2%N)
       (with_rows Sample.signed_up Application
          [Sample.application 9%N (Some 1%N) (Some "offer")]) (Some 2%N)
     = get_application_stats (authenticated 2%N) Sample.signed_up (Some 2%N).
Proof.
  assert (H : 1%N <> 2%N) by discriminate.
  split; [exact H|].
  exact (proj1 (analytics_unaffected_by_others Sample.signed_up _
                  (Insert Application (authenticated 1%N)
                     (Sample.application 9%N (Some 1%N) (Some "offer")))
                  1%N 2%N H eq_refl eq_refl)).
Defined.

(** With a [NULL] argument both helper functions find no row, for every
    session and store: the comparison [user_id = NULL] is never true. *)
Theorem null_tenant_argument (who : session) (s : store) :
  get_application_stats who s None
  = Ok {| total := 0; applied := 0; interviews := 0; offers := 0; rejected := 0 |}
  /\ forall to_date today fuel,
       get_learning_streak to_date today (S fuel) who s None = Some 0.
Proof.
  split.
  - unfold get_application_stats. rewrite filter_none; [reflexivity|].
    intros r _. now destruct (Applications.user_id r).
  - intros to_date today fuel. unfold get_learning_streak. cbn [streak_loop].
    assert (Hnone : has_activity to_date (visible who (learning_progress s)) None today
                    = false).
    { unfold has_activity. apply not_true_is_false. rewrite existsb_exists.
      intros (r & _ & Hq). apply qualifies_owner in Hq.
      now destruct (LearningProgress.user_id r). }
    now rewrite Hnone.
Qed.

(** After a tenant is deleted both helper functions report nothing for it,
    whoever asks, and what any other tenant gets for itself is unchanged. *)
Theorem delete_user_clears_analytics (s : store) (t : uuid) (who : session) :
  get_application_stats who (delete_user t s) (Some t)
  = Ok {| total := 0; applied := 0; interviews := 0; offers := 0; rejected := 0 |}
  /\ (forall to_date today fuel,
        get_learning_streak to_date today (S fuel) who (delete_user t s) (Some t) = Some 0)
  /\ (forall u, u <> t ->
        get_application_stats (authenticated u) (delete_user t s) (Some u)
        = get_application_stats (authenticated u) s (Some u)
        /\ forall to_date today fuel,
             get_learning_streak to_date today fuel (authenticated u) (delete_user t s) (Some u)
             = get_learning_streak to_date today fuel (authenticated u) s (Some u)).
Proof.
  split; [|split].
  - unfold get_application_stats. rewrite filter_none; [reflexivity|].
    intros r Hr. unfold visible in Hr. apply filter_In in Hr as [Hr _].
    cbn [delete_user applications] in Hr. unfold cascade in Hr.
    apply filter_In in Hr as [_ Hr]. now apply negb_true_iff in Hr.
  - intros to_date today fuel. rewrite streak_reads_own_rows.
    change (learning_progress (delete_user t s)) with (cascade t (learning_progress s)).
    rewrite (owned_by_cascade (T := learning_progress_table)), N.eqb_refl.
    unfold visible. reflexivity.
  - intros u Hne. split.
    + unfold get_application_stats.
      fold (stats_rows (authenticated u) (delete_user t s) (Some u)).
      fold (stats_rows (authenticated u) s (Some u)).
      rewrite !stats_rows_own.
      change (applications (delete_user t s)) with (cascade t (applications s)).
      rewrite (owned_by_cascade (T := applications_table)).
      now rewrite (proj2 (N.eqb_neq u t) Hne).
    + intros to_date today fuel. rewrite !streak_reads_own_rows.
      change (learning_progress (delete_user t s)) with (cascade t (learning_progress s)).
      rewrite (owned_by_cascade (T := learning_progress_table)).
      now rewrite (proj2 (N.eqb_neq u t) Hne).
Qed.

(** ** More on the learning streak *)

Section StreakComposition.

Variable to_date : timestamptz -> date.

(** What a finished loop has seen. *)
Lemma streak_loop_sound (from : list LearningProgress.row) (p_user_id : option uuid) :
  forall (fuel : nat) (streak : Z) (day : date) (res : Z),
    streak_loop to_date fuel from p_user_id streak day = Some res ->
    exists n : nat,
      res = streak + Z.of_nat n
      /\ (forall k, (k < n)%nat ->
            has_activity to_date from p_user_id (day - Z.of_nat k) = true)
      /\ has_activity to_date from p_user_id (day - Z.of_nat n) = false.
Proof.
  induction fuel as [|fuel IH]; intros streak day res; cbn [streak_loop]; [discriminate|].
  destruct (has_activity to_date from p_user_id day) eqn:E; cbn [negb].
  - intros H. apply IH in H as (n & -> & Hdays & Hgap). exists (S n).
    split; [lia|]. split.
    + intros [|k] Hk.
      * now replace (day - Z.of_nat 0) with day by (simpl; lia).
      * replace (day - Z.of_nat (S k)) with (day - 1 - Z.of_nat k) by lia.
        apply Hdays. lia.
    + now replace (day - Z.of_nat (S n)) with (day - 1 - Z.of_nat n) by lia.
  - intros [= <-]. exists O. split; [simpl; lia|]. split.
    + intros k Hk. lia.
    + now replace (day - Z.of_nat 0) with day by (simpl; lia).
Qed.

(** The counter only adds to where it started. *)
Lemma streak_loop_shift (from : list LearningProgress.row) (p_user_id : option uuid)
  (c : Z) :
  forall (fuel : nat) (streak : Z) (day : date),
    streak_loop to_date fuel from p_user_id (streak + c) day
    = option_map (fun z => z + c) (streak_loop to_date fuel from p_user_id streak day).
Proof.
  induction fuel as [|fuel IH]; intros streak day; cbn [streak_loop]; [reflexivity|].
  destruct (has_activity to_date from p_user_id day); cbn [negb]; [|reflexivity].
  replace (streak + c + 1) with (streak + 1 + c) by lia. apply IH.
Qed.

(** The loop started at [day] looks at [day] and earlier days only. *)
Lemma streak_loop_ext_upto (from from' : list LearningProgress.row)
  (p_user_id : option uuid) :
  forall (fuel : nat) (streak : Z) (day : date),
    (forall d, d <= day ->
       has_activity to_date from p_user_id d = has_activity to_date from' p_user_id d) ->
    streak_loop to_date fuel from p_user_id streak day
    = streak_loop to_date fuel from' p_user_id streak day.
Proof.
  induction fuel as [|fuel IH]; intros streak day Hsame; cbn [streak_loop]; [reflexivity|].
  rewrite (Hsame day) by lia.
  destruct (has_activity to_date from' p_user_id day); cbn [negb]; [|reflexivity].
  apply IH. intros d Hd. apply Hsame. lia.
Qed.

Lemma has_activity_app (a b : list LearningProgress.row) (p_user_id : option uuid)
  (day : date) :
  has_activity to_date (a ++ b) p_user_id day
  = has_activity to_date a p_user_id day || has_activity to_date b p_user_id day.
Proof. unfold has_activity. apply existsb_app. Qed.

Lemma visible_app {row : Type} {T : Table row} (who : session) (a b : list row) :
  visible who (a ++ b) = (visible who a ++ visible who b)%list.
Proof. apply filter_app. Qed.

End StreakComposition.

(** A streak that is reported was earned: if [get_learning_streak(t)],
    called by [t] or by the owner role, returns [n], then [n] is not
    negative, [t] has a completed row updated on each of the [n] days ending
    today, and none updated [n] days ago. *)
Theorem learning_streak_sound (to_date : timestamptz -> date) (today : date)
  (fuel : nat) (who : session) (s : store) (t : uuid) (n : Z)
  (Hwho : who = authenticated t \/ who = table_owner)
  (Hres : get_learning_streak to_date today fuel who s (Some t) = Some n) :
  0 <= n
  /\ (forall k, 0 <= k < n -> active_on to_date s t (today - k))
  /\ ~ active_on to_date s t (today - n).
Proof.
  unfold get_learning_streak in Hres.
  apply streak_loop_sound in Hres as (m & -> & Hdays & Hgap).
  split; [lia|]. split.
  - intros k Hk. apply (has_activity_active_on to_date who s t _ Hwho).
    replace k with (Z.of_nat (Z.to_nat k)) by lia. apply Hdays. lia.
  - intros H. apply (has_activity_active_on to_date who s t _ Hwho) in H.
    replace (0 + Z.of_nat m) with (Z.of_nat m) in H by lia. congruence.
Qed.

Lemma learning_streak_sound_witness :
  get_learning_streak utc_date 20000 9 (authenticated 1%N) Sample.four_days (Some 1%N)
  = Some 4
  /\ ~ active_on utc_date Sample.four_days 1%N (20000 - 4).
Proof.
  assert (H : get_learning_streak utc_date 20000 9 (authenticated 1%N) Sample.four_days
                (Some 1%N) = Some 4) by reflexivity.
  split; [exact H|].
  exact (proj2 (proj2 (learning_streak_sound utc_date 20000 9 (authenticated 1%N)
                         Sample.four_days 1%N 4 (or_introl eq_refl) H))).
Defined.

(** A progress row that is not completed, or has no [updated_at], counts for
    nobody: after its insert every streak, of every tenant and for every
    session, is what it was. *)
Theorem unfinished_row_changes_no_streak (s s' : store) (who0 : session)
  (r : LearningProgress.row)
  (Hexec : exec s (Insert LearningProgress who0 r) = Ok s')
  (Hnot : LearningProgress.completed r <> Some true
          \/ LearningProgress.updated_at r = None) :
  forall to_date today fuel who p_user_id,
    get_learning_streak to_date today fuel who s' p_user_id
    = get_learning_streak to_date today fuel who s p_user_id.
Proof.
  intros to_date today fuel who p_user_id.
  apply (exec_insert_inv LearningProgress) in Hexec as (-> & _ & _).
  unfold get_learning_streak. apply streak_loop_ext. intros day.
  change (learning_progress
            (with_rows s LearningProgress (rows s LearningProgress ++ [r])%list))
    with (learning_progress s ++ [r])%list.
  rewrite (visible_app (T := learning_progress_table)), has_activity_app.
  assert (Hr : has_activity to_date (visible who [r]) p_user_id day = false).
  { unfold visible. cbn [filter].
    destruct (passes select_using who r); [|reflexivity].
    unfold has_activity. cbn [existsb]. rewrite orb_false_r.
    unfold qualifies. rewrite !is_true_and.
    destruct Hnot as [Hc | Hu].
    - destruct (LearningProgress.completed r) as [[|]|];
        [congruence | | ]; cbn; apply andb_false_r.
    - rewrite Hu. cbn. now rewrite andb_false_r. }
  rewrite Hr. apply orb_false_r.
Qed.

Lemma unfinished_row_changes_no_streak_witness :
  LearningProgress.completed (Sample.progress 38%N (Some 1%N) "m7" (Some false) (Some 9))
  <> Some true
  /\ get_learning_streak utc_date 20000 9 (authenticated 1%N)
       (exec_keep Sample.four_days
          (Insert LearningProgress (authenticated 1%N)
             (Sample.progress 38%N (Some 1%N) "m7" (Some false) (Some 9))))
       (Some 1%N)
     = get_learning_streak utc_date 20000 9 (authenticated 1%N) Sample.four_days (Some 1%N).
Proof.
  assert (H : LearningProgress.completed
                (Sample.progress 38%N (Some 1%N) "m7" (Some false) (Some 9)) <> Some true)
    by discriminate.
  split; [exact H|].
  exact (unfinished_row_changes_no_streak Sample.four_days _ (authenticated 1%N)
           (Sample.progress 38%N (Some 1%N) "m7" (Some false) (Some 9))
           eq_refl (or_introl H) utc_date 20000 9%nat (authenticated 1%N) (Some 1%N)).
Defined.

(** Completing a milestone today extends the streak: after tenant [t]'s
    accepted insert of a completed row updated today, the streak counted
    from today is one more than the streak that was counted from yesterday
    before the insert. *)
Theorem completing_today_extends_streak (to_date : timestamptz -> date) (today : date)
  (s s' : store) (t : uuid) (r : LearningProgress.row) (ts : timestamptz)
  (Hexec : exec s (Insert LearningProgress (authenticated t) r) = Ok s')
  (Hdone : LearningProgress.completed r = Some true)
  (Hts : LearningProgress.updated_at r = Some ts)
  (Hday : to_date ts = today) :
  forall fuel,
    get_learning_streak to_date today (S fuel) (authenticated t) s' (Some t)
    = option_map (fun n => n + 1)
        (get_learning_streak to_date (today - 1) fuel (authenticated t) s (Some t)).
Proof.
  intros fuel.
  apply (exec_insert_inv LearningProgress) in Hexec as (-> & Hp & _).
  apply (passes_insert (entity_owner_policies LearningProgress)) in Hp.
  change (user_id r) with (LearningProgress.user_id r) in Hp.
  unfold get_learning_streak.
  change (learning_progress
            (with_rows s LearningProgress (rows s LearningProgress ++ [r])%list))
    with (learning_progress s ++ [r])%list.
  rewrite (visible_app (T := learning_progress_table)).
  assert (Hvis : visible (authenticated t) [r] = [r]).
  { pose proof (proj2 (passes_select (entity_owner_policies LearningProgress) t r) Hp)
      as Hps.
    change (passes (@select_using _ learning_progress_table) (authenticated t) r = true)
      in Hps.
    unfold visible. cbn [filter]. now rewrite Hps. }
  rewrite Hvis.
  assert (Hq : forall d, has_activity to_date [r] (Some t) d = Z.eqb today d).
  { intros d. unfold has_activity. cbn [existsb]. rewrite orb_false_r.
    unfold qualifies. rewrite Hp, Hdone, Hts. cbn. rewrite N.eqb_refl, Hday.
    cbn. now destruct (today =? d). }
  cbn [streak_loop]. rewrite has_activity_app, Hq, Z.eqb_refl, orb_true_r. cbn [negb].
  rewrite (streak_loop_shift to_date _ (Some t) 1 fuel 0 (today - 1)).
  f_equal. apply streak_loop_ext_upto. intros d Hd.
  rewrite has_activity_app, Hq.
  destruct (Z.eqb_spec today d); [lia | apply orb_false_r].
Qed.

Lemma completing_today_extends_streak_witness :
  get_learning_streak utc_date 20001 9 (authenticated 1%N)
    (exec_keep Sample.four_days
       (Insert LearningProgress (authenticated 1%N)
          (Sample.progress 39%N (Some 1%N) "m8" (Some true) (Some (utc_midnight 20001)))))
    (Some 1%N)
  = Some 5.
Proof.
  exact (completing_today_extends_streak utc_date 20001 Sample.four_days _ 1%N
           (Sample.progress 39%N (Some 1%N) "m8" (Some true) (Some (utc_midnight 20001)))
           (utc_midnight 20001) eq_refl eq_refl eq_refl eq_refl 8%nat).
Defined.

(** ** Every tenant keeps exactly one profile *)

Lemma tenant_reachable_reachable (s : store) : tenant_reachable s -> reachable s.
Proof.
  induction 1 as [|s st s' _ IH _ Hexec]; [constructor|].
  now apply reachable_step with s st.
Qed.

Lemma not_bypass_cases (who : session) :
  bypass_rls who = false -> who = anon \/ exists t, who = authenticated t.
Proof. destruct who; simpl; intros H; [discriminate | eauto | auto]. Qed.

Lemma update_anon_nothing {row : Type} {T : Table row} (users : list uuid)
  (tbl : list row) (target : uuid) (set : row -> row) :
  owner_policies T -> update anon users tbl target set = Ok tbl.
Proof.
  intros HP. unfold update. rewrite filter_none; [reflexivity|].
  intros r _. unfold targeted. rewrite (op_select _ HP), passes_anon.
  now rewrite andb_false_r.
Qed.

Lemma tenants_create_user (d : defaults) (new : AuthUsers.row) (s s' : store) :
  create_user d new s = Ok s' ->
  tenants s' = (tenants s ++ [AuthUsers.id new])%list
  /\ profiles s' = (profiles s ++ [new_profile d new])%list.
Proof.
  intros H. apply create_user_inv in H as [_ Hhook].
  apply handle_new_user_inv in Hhook as [-> _]. split; [|reflexivity].
  unfold tenants. cbn [with_rows with_users auth_users]. now rewrite map_app.
Qed.

(** As long as no statement runs as the owner of the tables (tenants are
    created and deleted, and sessions subject to row-level security insert,
    update and delete), every tenant in [auth.users] owns exactly one
    profile: the trigger creates it, no policy lets a session delete it or
    hand it over, and a second one is refused. *)
Theorem every_tenant_has_one_profile (s : store) (u : uuid)
  (Hreach : tenant_reachable s)
  (Htenant : In u (tenants s)) :
  List.length (owned_by u (profiles s)) = 1%nat.
Proof.
  revert u Htenant.
  induction Hreach as [|s st s' Hs IH Hlevel Hexec]; intros u Hu; [contradiction|].
  pose proof (reachable_store_ok s (tenant_reachable_reachable s Hs)) as Hok.
  destruct st as [d new | uid | e who r | e who target set | e who cond];
    cbn [exec] in Hexec; cbn [tenant_level] in Hlevel.
  - pose proof Hexec as Hinv. apply create_user_inv in Hinv as [Hfresh _].
    apply tenants_create_user in Hexec as [Ht Hp]. rewrite Ht in Hu. rewrite Hp.
    rewrite (owned_by_app (T := profiles_table)), length_app.
    apply in_app_or in Hu as [Hu | [<- | []]].
    + rewrite (IH u Hu).
      rewrite (owned_by_other (T := profiles_table) u (AuthUsers.id new));
        [reflexivity | reflexivity | congruence].
    + pose proof (no_rows_without_tenant s Profile _ Hok Hfresh) as Hnone.
      change (owned_by (AuthUsers.id new) (profiles s) = []) in Hnone.
      rewrite Hnone. unfold owned_by. cbn. now rewrite N.eqb_refl.
  - injection Hexec as <-. rewrite tenants_delete_user in Hu.
    apply filter_In in Hu as [Hu Hne]. apply negb_true_iff in Hne.
    change (profiles (delete_user uid s)) with (cascade uid (profiles s)).
    rewrite (owned_by_cascade (T := profiles_table)), Hne. now apply IH.
  - destruct (insert who (tenants s) (rows s e) r) as [tb|err] eqn:E;
      cbn [bind] in Hexec; [|discriminate].
    injection Hexec as <-. rewrite tenants_with_rows in Hu.
    same_table Profile e.
    + exfalso. apply insert_ok_inv in E as (_ & Hp & Hc).
      apply not_bypass_cases in Hlevel as [-> | [t ->]]; [discriminate Hp|].
      apply (passes_insert (entity_owner_policies Profile)) in Hp.
      apply constraints_ok_iff in Hc as (_ & _ & Hfree & Hfk).
      rewrite references_user_iff in Hfk. specialize (Hfk t Hp).
      specialize (IH t Hfk).
      destruct (owned_by t (profiles s)) as [|p0 rest] eqn:Eo; [discriminate|].
      assert (Hp0 : In p0 (owned_by t (profiles s))) by (rewrite Eo; now left).
      apply (owned_by_In (T := profiles_table)) in Hp0 as [Hin Hown].
      assert (Hclash : clashes (rows s Profile) r = true).
      { unfold clashes. apply existsb_exists. exists p0. split; [exact Hin|].
        exact (same_owner_clash t p0 r Hown Hp). }
      congruence.
    + change (profiles (with_rows s e tb)) with (rows (with_rows s e tb) Profile).
      rewrite rows_with_rows_other; [now apply IH|].
      destruct e; simpl in *; congruence.
  - destruct (update who (tenants s) (rows s e) target set) as [tb|err] eqn:E;
      cbn [bind] in Hexec; [|discriminate].
    injection Hexec as <-. rewrite tenants_with_rows in Hu.
    same_table Profile e.
    + change (profiles (with_rows s Profile tb)) with tb.
      apply not_bypass_cases in Hlevel as [-> | [t ->]].
      * rewrite (update_anon_nothing _ _ _ _ (entity_owner_policies Profile)) in E.
        injection E as <-. now apply IH.
      * destruct (update_keeps_counts (entity_owner_policies Profile) t _ _ _ _ _ E)
          as [_ Hcount].
        rewrite Hcount. now apply IH.
    + change (profiles (with_rows s e tb)) with (rows (with_rows s e tb) Profile).
      rewrite rows_with_rows_other; [now apply IH|].
      destruct e; simpl in *; congruence.
  - injection Hexec as <-. rewrite tenants_with_rows in Hu.
    same_table Profile e.
    + change (profiles (with_rows s Profile (delete who (rows s Profile) cond)))
        with (delete who (rows s Profile) cond).
      rewrite (delete_without_policy who Hlevel); [now apply IH | reflexivity].
    + change (profiles (with_rows s e (delete who (rows s e) cond)))
        with (rows (with_rows s e (delete who (rows s e) cond)) Profile).
      rewrite rows_with_rows_other; [now apply IH|].
      destruct e; simpl in *; congruence.
Qed.

Lemma every_tenant_has_one_profile_witness :
  tenant_reachable Sample.signed_up
  /\ List.length (owned_by 2%N (profiles Sample.signed_up)) = 1%nat.
Proof.
  assert (H : tenant_reachable Sample.signed_up).
  { apply (tenant_reachable_step
             (run [CreateUser (Sample.at_signup 101%N) Sample.alice])
             (CreateUser (Sample.at_signup 102%N) Sample.bob) Sample.signed_up);
      [|exact I | reflexivity].
    apply (tenant_reachable_step empty_store
             (CreateUser (Sample.at_signup 101%N) Sample.alice) _);
      [apply tenant_reachable_empty | exact I | reflexivity]. }
  split; [exact H|].
  apply (every_tenant_has_one_profile Sample.signed_up 2%N H).
  simpl. auto.
Defined.
